(** * pyipay: a shallow embedding of the payment-gateway client

    The development follows the two modules of the package:
    - [pyipay/util.py]: URL validation, field sanitising, the resource
      file reader, the AES payload transform and the [check_if_set]
      decorator;
    - [pyipay/pyipay.py]: the [Gateway] class.

    Python [str] values are represented by their UTF-8 encoding (a Rocq
    [string]), [bytes] values by lists of 8-bit characters.  Exceptions
    are modelled by an error monad; a [dict] is an insertion-ordered
    association list with unique keys, as in Python 3.6 and later (the
    order of the purchase parameters inside the payload depends on it). *)

From Stdlib Require Import String Ascii List Bool Arith NArith ZArith Lia.
From Stdlib Require Import DecimalString Floats Btauto.
Import ListNotations.

Open Scope string_scope.
Open Scope list_scope.
Open Scope nat_scope.

(** ** Exceptions and the error monad *)

(** The exceptions the code can raise.  [KeyNotFound], [InvalidUrl],
    [InvalidAlias] and [InvalidGatewayResponse] are the classes of
    [pyipay/exceptions.py]; the others are Python built-ins or come from
    the libraries the package calls.  [InvalidAlias] keeps the alias and
    the archive's name list, from which the source formats its message. *)
Inductive exn : Type :=
| AttributeError (msg : string)
| KeyError (key : string)
| TypeError (msg : string)
| ValueError (msg : string)
| IndexError (msg : string)
| binascii_Error (msg : string)
| UnicodeDecodeError
| KeyNotFound
| InvalidUrl (msg : string)
| InvalidAlias (alias : string) (names : list string)
| InvalidGatewayResponse (msg : string)
| LibraryError (msg : string).

Inductive result (A : Type) : Type :=
| Ok (a : A)
| Raise (e : exn).

Arguments Ok {A} a.
Arguments Raise {A} e.

Definition bind {A B : Type} (m : result A) (k : A -> result B) : result B :=
  match m with
  | Ok a => k a
  | Raise e => Raise e
  end.

Notation "x <- m ;; k" := (bind m (fun x => k))
  (at level 61, m at next level, right associativity).
Notation "m ;;; k" := (bind m (fun _ => k))
  (at level 61, right associativity).

(** ** Bytes, text and numbers *)

Definition bytes := list ascii.

(** [s.encode("utf-8")]: the representation of a [str] is its encoding. *)
Definition str_encode (s : string) : bytes := list_ascii_of_string s.

Definition byte_val (a : ascii) : N := N_of_ascii a.

Definition is_cont (a : ascii) : bool :=
  (128 <=? byte_val a)%N && (byte_val a <=? 191)%N.

Definition in_range (lo hi : N) (a : ascii) : bool :=
  (lo <=? byte_val a)%N && (byte_val a <=? hi)%N.

(** Strict UTF-8 well-formedness (no overlong forms, no surrogates,
    nothing above U+10FFFF), as [bytes.decode("utf-8")] checks it. *)
Fixpoint utf8_valid (l : bytes) : bool :=
  match l with
  | [] => true
  | a :: r =>
    let b := byte_val a in
    if (b <? 128)%N then utf8_valid r
    else if (b <? 194)%N then false
    else if (b <? 224)%N then
      match r with
      | c1 :: r' => is_cont c1 && utf8_valid r'
      | _ => false
      end
    else if (b <? 240)%N then
      match r with
      | c1 :: c2 :: r' =>
        (if (b =? 224)%N then in_range 160 191 c1
         else if (b =? 237)%N then in_range 128 159 c1
         else is_cont c1)
        && is_cont c2 && utf8_valid r'
      | _ => false
      end
    else if (b <? 245)%N then
      match r with
      | c1 :: c2 :: c3 :: r' =>
        (if (b =? 240)%N then in_range 144 191 c1
         else if (b =? 244)%N then in_range 128 143 c1
         else is_cont c1)
        && is_cont c2 && is_cont c3 && utf8_valid r'
      | _ => false
      end
    else false
  end.

(** [b.decode("utf-8")] *)
Definition bytes_decode (b : bytes) : result string :=
  if utf8_valid b then Ok (string_of_list_ascii b) else Raise UnicodeDecodeError.

(** A well-formed [str]: its representation is valid UTF-8. *)
Definition is_str (s : string) : Prop := utf8_valid (str_encode s) = true.

(** [str(n)] for an [int]. *)
Definition str_of_int (z : Z) : string := NilZero.string_of_int (Z.to_int z).
Definition str_of_nat (n : nat) : string := NilZero.string_of_uint (Nat.to_uint n).

Fixpoint join (sep : string) (l : list string) : string :=
  match l with
  | [] => ""
  | [x] => x
  | x :: r => x ++ sep ++ join sep r
  end.

(** ** binascii *)

Definition hexdigit (n : N) : ascii :=
  nth (N.to_nat n) (list_ascii_of_string "0123456789abcdef") "0"%char.

(** [binascii.hexlify] *)
Definition hexlify (b : bytes) : bytes :=
  flat_map (fun a => [hexdigit (byte_val a / 16); hexdigit (byte_val a mod 16)]) b.

Definition unhex_digit (a : ascii) : option N :=
  let n := byte_val a in
  if (48 <=? n)%N && (n <=? 57)%N then Some (n - 48)%N
  else if (97 <=? n)%N && (n <=? 102)%N then Some (n - 87)%N
  else if (65 <=? n)%N && (n <=? 70)%N then Some (n - 55)%N
  else None.

Fixpoint unhex_pairs (l : bytes) : result bytes :=
  match l with
  | h :: l0 :: r =>
    match unhex_digit h, unhex_digit l0 with
    | Some x, Some y =>
      rest <- unhex_pairs r ;; Ok (ascii_of_N (16 * x + y) :: rest)
    | _, _ => Raise (binascii_Error "Non-hexadecimal digit found")
    end
  | _ => Ok []
  end.

(** An argument that may be a [str] or a bytes-like object. *)
Inductive text_or_bytes : Type :=
| Str (s : string)
| Bytes (b : bytes).

(** [binascii.unhexlify]; a [str] argument must be ASCII. *)
Definition unhexlify (arg : text_or_bytes) : result bytes :=
  match arg with
  | Str s =>
    if negb (forallb (fun a => (byte_val a <? 128)%N) (str_encode s))
    then Raise (ValueError "string argument should contain only ASCII characters")
    else if Nat.odd (length (str_encode s))
    then Raise (binascii_Error "Odd-length string")
    else unhex_pairs (str_encode s)
  | Bytes l =>
    if Nat.odd (length l) then Raise (binascii_Error "Odd-length string")
    else unhex_pairs l
  end.

(** ** Cryptodome.Util.Padding *)

Definition PADDING_OFFSET : nat := 16.

(** [Padding.pad(data, block_size)], PKCS#7 style *)
Definition pad (data : bytes) (block_size : nat) : bytes :=
  let n := block_size - length data mod block_size in
  data ++ repeat (ascii_of_nat n) n.

(** [Padding.unpad(data, block_size)], PKCS#7 style *)
Definition unpad (data : bytes) (block_size : nat) : result bytes :=
  let len := length data in
  if len =? 0 then Raise (ValueError "Zero-length input cannot be unpadded")
  else if negb (len mod block_size =? 0)
  then Raise (ValueError "Input data is not padded")
  else
    let n := nat_of_ascii (last data Ascii.zero) in
    if (n <? 1) || (Nat.min block_size len <? n)
    then Raise (ValueError "Padding is incorrect.")
    else if negb (forallb (Ascii.eqb (ascii_of_nat n)) (skipn (len - n) data))
    then Raise (ValueError "PKCS#7 padding is incorrect.")
    else Ok (firstn (len - n) data).

(** ** Cryptodome.Cipher.AES in CBC mode *)

(** The block primitive is the library's.  The payload transform is stated
    over any keyed permutation of 16-byte blocks, for keys of 16, 24 or 32
    bytes; [AES] below is the one the library implements. *)
Definition valid_key_size (n : nat) : bool :=
  (n =? 16) || (n =? 24) || (n =? 32).

Class BlockCipher : Type := {
  block_encrypt : bytes -> bytes -> bytes;
  block_decrypt : bytes -> bytes -> bytes;
  block_encrypt_length : forall k b,
    valid_key_size (length k) = true -> length b = 16 ->
    length (block_encrypt k b) = 16;
  block_decrypt_encrypt : forall k b,
    valid_key_size (length k) = true -> length b = 16 ->
    block_decrypt k (block_encrypt k b) = b
}.

Definition xor_byte (a b : ascii) : ascii :=
  match a, b with
  | Ascii a0 a1 a2 a3 a4 a5 a6 a7, Ascii b0 b1 b2 b3 b4 b5 b6 b7 =>
    Ascii (xorb a0 b0) (xorb a1 b1) (xorb a2 b2) (xorb a3 b3)
          (xorb a4 b4) (xorb a5 b5) (xorb a6 b6) (xorb a7 b7)
  end.

Fixpoint strxor (x y : bytes) : bytes :=
  match x, y with
  | a :: x', b :: y' => xor_byte a b :: strxor x' y'
  | _, _ => []
  end.

(** The cipher object [AES.new(key, AES.MODE_CBC, iv=iv)] returns. *)
Record CbcCipher : Type := { cbc_key : bytes; cbc_iv : bytes }.

Definition AES_new_CBC (key iv : bytes) : result CbcCipher :=
  if negb (valid_key_size (length key))
  then Raise (ValueError ("Incorrect AES key length ("
                          ++ str_of_nat (length key) ++ " bytes)"))
  else if negb (length iv =? 16)
  then Raise (ValueError "Incorrect IV length (it must be 16 bytes long)")
  else Ok {| cbc_key := key; cbc_iv := iv |}.

Section CBC.
Context `{BlockCipher}.

Fixpoint cbc_encrypt_blocks (k prev data : bytes) : bytes :=
  match data with
  | b0 :: b1 :: b2 :: b3 :: b4 :: b5 :: b6 :: b7 ::
    b8 :: b9 :: b10 :: b11 :: b12 :: b13 :: b14 :: b15 :: rest =>
    let c := block_encrypt k
               (strxor [b0; b1; b2; b3; b4; b5; b6; b7;
                        b8; b9; b10; b11; b12; b13; b14; b15] prev) in
    c ++ cbc_encrypt_blocks k c rest
  | _ => []
  end.

Fixpoint cbc_decrypt_blocks (k prev data : bytes) : bytes :=
  match data with
  | b0 :: b1 :: b2 :: b3 :: b4 :: b5 :: b6 :: b7 ::
    b8 :: b9 :: b10 :: b11 :: b12 :: b13 :: b14 :: b15 :: rest =>
    let c := [b0; b1; b2; b3; b4; b5; b6; b7;
              b8; b9; b10; b11; b12; b13; b14; b15] in
    strxor (block_decrypt k c) prev ++ cbc_decrypt_blocks k c rest
  | _ => []
  end.

(** [cipher.encrypt(data)] *)
Definition cbc_encrypt (c : CbcCipher) (data : bytes) : result bytes :=
  if negb (length data mod 16 =? 0)
  then Raise (ValueError "Data must be padded to 16 byte boundary in CBC mode")
  else Ok (cbc_encrypt_blocks (cbc_key c) (cbc_iv c) data).

(** [cipher.decrypt(data)] *)
Definition cbc_decrypt (c : CbcCipher) (data : bytes) : result bytes :=
  if negb (length data mod 16 =? 0)
  then Raise (ValueError "Data must be padded to 16 byte boundary in CBC mode")
  else Ok (cbc_decrypt_blocks (cbc_key c) (cbc_iv c) data).

(** ** util.py: the payload transform *)

(** [encrypt_payload(plain_text, key)] *)
Definition encrypt_payload (plain_text key : string) : result bytes :=
  let key := str_encode key in
  crypt <- AES_new_CBC key key ;;
  ct <- cbc_encrypt crypt (pad (str_encode plain_text) PADDING_OFFSET) ;;
  Ok (hexlify ct).

(** [decrypt_payload(encrypted_text, key)] *)
Definition decrypt_payload (encrypted_text : text_or_bytes) (key : string)
  : result string :=
  let key := str_encode key in
  raw <- unhexlify encrypted_text ;;
  crypt <- AES_new_CBC key key ;;
  pt <- cbc_decrypt crypt raw ;;
  data <- unpad pt PADDING_OFFSET ;;
  bytes_decode data.

End CBC.

(** ** The AES block cipher (FIPS 197)

    The primitive behind [Cryptodome.Cipher.AES], on a state of four
    columns of four bytes each. *)
Module AES.

Definition word : Type := (ascii * ascii * ascii * ascii)%type.
Definition state : Type := (word * word * word * word)%type.

Definition sbox_table : list nat :=
  [
    99; 124; 119; 123; 242; 107; 111; 197;  48;   1; 103;  43; 254; 215; 171; 118;
   202; 130; 201; 125; 250;  89;  71; 240; 173; 212; 162; 175; 156; 164; 114; 192;
   183; 253; 147;  38;  54;  63; 247; 204;  52; 165; 229; 241; 113; 216;  49;  21;
     4; 199;  35; 195;  24; 150;   5; 154;   7;  18; 128; 226; 235;  39; 178; 117;
     9; 131;  44;  26;  27; 110;  90; 160;  82;  59; 214; 179;  41; 227;  47; 132;
    83; 209;   0; 237;  32; 252; 177;  91; 106; 203; 190;  57;  74;  76;  88; 207;
   208; 239; 170; 251;  67;  77;  51; 133;  69; 249;   2; 127;  80;  60; 159; 168;
    81; 163;  64; 143; 146; 157;  56; 245; 188; 182; 218;  33;  16; 255; 243; 210;
   205;  12;  19; 236;  95; 151;  68;  23; 196; 167; 126;  61; 100;  93;  25; 115;
    96; 129;  79; 220;  34;  42; 144; 136;  70; 238; 184;  20; 222;  94;  11; 219;
   224;  50;  58;  10;  73;   6;  36;  92; 194; 211; 172;  98; 145; 149; 228; 121;
   231; 200;  55; 109; 141; 213;  78; 169; 108;  86; 244; 234; 101; 122; 174;   8;
   186; 120;  37;  46;  28; 166; 180; 198; 232; 221; 116;  31;  75; 189; 139; 138;
   112;  62; 181; 102;  72;   3; 246;  14;  97;  53;  87; 185; 134; 193;  29; 158;
   225; 248; 152;  17; 105; 217; 142; 148; 155;  30; 135; 233; 206;  85;  40; 223;
   140; 161; 137;  13; 191; 230;  66; 104;  65; 153;  45;  15; 176;  84; 187;  22 ].

Definition inv_sbox_table : list nat :=
  [
    82;   9; 106; 213;  48;  54; 165;  56; 191;  64; 163; 158; 129; 243; 215; 251;
   124; 227;  57; 130; 155;  47; 255; 135;  52; 142;  67;  68; 196; 222; 233; 203;
    84; 123; 148;  50; 166; 194;  35;  61; 238;  76; 149;  11;  66; 250; 195;  78;
     8;  46; 161; 102;  40; 217;  36; 178; 118;  91; 162;  73; 109; 139; 209;  37;
   114; 248; 246; 100; 134; 104; 152;  22; 212; 164;  92; 204;  93; 101; 182; 146;
   108; 112;  72;  80; 253; 237; 185; 218;  94;  21;  70;  87; 167; 141; 157; 132;
   144; 216; 171;   0; 140; 188; 211;  10; 247; 228;  88;   5; 184; 179;  69;   6;
   208;  44;  30; 143; 202;  63;  15;   2; 193; 175; 189;   3;   1;  19; 138; 107;
    58; 145;  17;  65;  79; 103; 220; 234; 151; 242; 207; 206; 240; 180; 230; 115;
   150; 172; 116;  34; 231; 173;  53; 133; 226; 249;  55; 232;  28; 117; 223; 110;
    71; 241;  26; 113;  29;  41; 197; 137; 111; 183;  98;  14; 170;  24; 190;  27;
   252;  86;  62;  75; 198; 210; 121;  32; 154; 219; 192; 254; 120; 205;  90; 244;
    31; 221; 168;  51; 136;   7; 199;  49; 177;  18;  16;  89;  39; 128; 236;  95;
    96;  81; 127; 169;  25; 181;  74;  13;  45; 229; 122; 159; 147; 201; 156; 239;
   160; 224;  59;  77; 174;  42; 245; 176; 200; 235; 187;  60; 131;  83; 153;  97;
    23;  43;   4; 126; 186; 119; 214;  38; 225; 105;  20;  99;  85;  33;  12; 125 ].

Definition sub_byte (a : ascii) : ascii :=
  ascii_of_nat (nth (nat_of_ascii a) sbox_table 0).

Definition inv_sub_byte (a : ascii) : ascii :=
  ascii_of_nat (nth (nat_of_ascii a) inv_sbox_table 0).

(** Multiplication by [x] in GF(2^8) modulo [x^8 + x^4 + x^3 + x + 1]. *)
Definition xtime (a : ascii) : ascii :=
  match a with
  | Ascii b0 b1 b2 b3 b4 b5 b6 b7 =>
    Ascii b7 (xorb b0 b7) b1 (xorb b2 b7) (xorb b3 b7) b4 b5 b6
  end.

Definition mul2 (a : ascii) : ascii := xtime a.
Definition mul3 (a : ascii) : ascii := xor_byte (xtime a) a.
Definition mul9 (a : ascii) : ascii := xor_byte (xtime (xtime (xtime a))) a.
Definition mul11 (a : ascii) : ascii :=
  xor_byte (xtime (xtime (xtime a))) (xor_byte (xtime a) a).
Definition mul13 (a : ascii) : ascii :=
  xor_byte (xtime (xtime (xtime a))) (xor_byte (xtime (xtime a)) a).
Definition mul14 (a : ascii) : ascii :=
  xor_byte (xtime (xtime (xtime a))) (xor_byte (xtime (xtime a)) (xtime a)).

Definition xor4 (a b c d : ascii) : ascii :=
  xor_byte a (xor_byte b (xor_byte c d)).

Definition map_word (f : ascii -> ascii) (w : word) : word :=
  let '(a, b, c, d) := w in (f a, f b, f c, f d).

Definition xor_word (x y : word) : word :=
  let '(a, b, c, d) := x in
  let '(a', b', c', d') := y in
  (xor_byte a a', xor_byte b b', xor_byte c c', xor_byte d d').

Definition map_state (f : word -> word) (s : state) : state :=
  let '(c0, c1, c2, c3) := s in (f c0, f c1, f c2, f c3).

Definition sub_bytes (s : state) : state := map_state (map_word sub_byte) s.
Definition inv_sub_bytes (s : state) : state :=
  map_state (map_word inv_sub_byte) s.

Definition shift_rows (s : state) : state :=
  let '((a0, a1, a2, a3), (b0, b1, b2, b3),
        (c0, c1, c2, c3), (d0, d1, d2, d3)) := s in
  ((a0, b1, c2, d3), (b0, c1, d2, a3), (c0, d1, a2, b3), (d0, a1, b2, c3)).

Definition inv_shift_rows (s : state) : state :=
  let '((a0, a1, a2, a3), (b0, b1, b2, b3),
        (c0, c1, c2, c3), (d0, d1, d2, d3)) := s in
  ((a0, d1, c2, b3), (b0, a1, d2, c3), (c0, b1, a2, d3), (d0, c1, b2, a3)).

Definition mix_column (w : word) : word :=
  let '(a, b, c, d) := w in
  (xor4 (mul2 a) (mul3 b) c d,
   xor4 a (mul2 b) (mul3 c) d,
   xor4 a b (mul2 c) (mul3 d),
   xor4 (mul3 a) b c (mul2 d)).

Definition inv_mix_column (w : word) : word :=
  let '(a, b, c, d) := w in
  (xor4 (mul14 a) (mul11 b) (mul13 c) (mul9 d),
   xor4 (mul9 a) (mul14 b) (mul11 c) (mul13 d),
   xor4 (mul13 a) (mul9 b) (mul14 c) (mul11 d),
   xor4 (mul11 a) (mul13 b) (mul9 c) (mul14 d)).

Definition mix_columns (s : state) : state := map_state mix_column s.
Definition inv_mix_columns (s : state) : state := map_state inv_mix_column s.

Definition add_round_key (rk s : state) : state :=
  let '(k0, k1, k2, k3) := rk in
  let '(c0, c1, c2, c3) := s in
  (xor_word c0 k0, xor_word c1 k1, xor_word c2 k2, xor_word c3 k3).

(** *** Key expansion *)

Definition zero_word : word := (Ascii.zero, Ascii.zero, Ascii.zero, Ascii.zero).

Definition rot_word (w : word) : word :=
  let '(a, b, c, d) := w in (b, c, d, a).

Definition sub_word (w : word) : word := map_word sub_byte w.

(** [rcon i] is [x^(i-1)], for [i >= 1]. *)
Fixpoint rcon (i : nat) : ascii :=
  match i with
  | 0 => Ascii.zero
  | 1 => Ascii.one
  | S j => xtime (rcon j)
  end.

Fixpoint words_of_bytes (l : bytes) : list word :=
  match l with
  | a :: b :: c :: d :: r => (a, b, c, d) :: words_of_bytes r
  | _ => []
  end.

(** [expand Nk n i w]: [w] holds the words [0 .. i-1]; add [n] more. *)
Fixpoint expand (Nk n i : nat) (w : list word) : list word :=
  match n with
  | 0 => w
  | S n' =>
    let prev := nth (i - 1) w zero_word in
    let temp :=
      if i mod Nk =? 0
      then xor_word (sub_word (rot_word prev))
                    (rcon (i / Nk), Ascii.zero, Ascii.zero, Ascii.zero)
      else if (6 <? Nk) && (i mod Nk =? 4) then sub_word prev
      else prev in
    expand Nk n' (S i) (w ++ [xor_word (nth (i - Nk) w zero_word) temp])
  end.

Definition key_expansion (key : bytes) : list word :=
  let Nk := length key / 4 in
  let Nr := Nk + 6 in
  expand Nk (4 * (Nr + 1) - Nk) Nk (words_of_bytes key).

Fixpoint group_keys (ws : list word) : list state :=
  match ws with
  | a :: b :: c :: d :: r => (a, b, c, d) :: group_keys r
  | _ => []
  end.

Definition round_keys (key : bytes) : list state :=
  group_keys (key_expansion key).

(** *** Cipher and inverse cipher *)

Definition round (rk s : state) : state :=
  add_round_key rk (mix_columns (shift_rows (sub_bytes s))).

Definition final_round (rk s : state) : state :=
  add_round_key rk (shift_rows (sub_bytes s)).

Definition inv_round (rk s : state) : state :=
  inv_sub_bytes (inv_shift_rows (inv_mix_columns (add_round_key rk s))).

Definition inv_final_round (rk s : state) : state :=
  inv_sub_bytes (inv_shift_rows (add_round_key rk s)).

(** The rounds after the initial key addition; the last one has no
    column mixing. *)
Fixpoint rounds (rks : list state) (s : state) : state :=
  match rks with
  | [] => s
  | rk :: r =>
    match r with
    | [] => final_round rk s
    | _ => rounds r (round rk s)
    end
  end.

Fixpoint inv_rounds (rks : list state) (s : state) : state :=
  match rks with
  | [] => s
  | rk :: r =>
    match r with
    | [] => inv_final_round rk s
    | _ => inv_round rk (inv_rounds r s)
    end
  end.

Definition cipher (rks : list state) (s : state) : state :=
  match rks with
  | [] => s
  | rk0 :: r => rounds r (add_round_key rk0 s)
  end.

Definition inv_cipher (rks : list state) (s : state) : state :=
  match rks with
  | [] => s
  | rk0 :: r => add_round_key rk0 (inv_rounds r s)
  end.

Definition state_of_block (b : bytes) : option state :=
  match b with
  | [b0; b1; b2; b3; b4; b5; b6; b7; b8; b9; b10; b11; b12; b13; b14; b15] =>
    Some ((b0, b1, b2, b3), (b4, b5, b6, b7),
          (b8, b9, b10, b11), (b12, b13, b14, b15))
  | _ => None
  end.

Definition block_of_state (s : state) : bytes :=
  let '((b0, b1, b2, b3), (b4, b5, b6, b7),
        (b8, b9, b10, b11), (b12, b13, b14, b15)) := s in
  [b0; b1; b2; b3; b4; b5; b6; b7; b8; b9; b10; b11; b12; b13; b14; b15].

Definition encrypt_block (key block : bytes) : bytes :=
  match state_of_block block with
  | Some s => block_of_state (cipher (round_keys key) s)
  | None => block
  end.

Definition decrypt_block (key block : bytes) : bytes :=
  match state_of_block block with
  | Some s => block_of_state (inv_cipher (round_keys key) s)
  | None => block
  end.

End AES.

(** ** Python values *)

(** [class Action(Enum)] *)
Inductive Action : Type := PURCHASE | REFUND | VOID | INQUIRY.

Definition Action_value (a : Action) : Z :=
  match a with
  | PURCHASE => 1
  | REFUND => 2
  | VOID => 3
  | INQUIRY => 8
  end.

Definition Action_name (a : Action) : string :=
  match a with
  | PURCHASE => "PURCHASE"
  | REFUND => "REFUND"
  | VOID => "VOID"
  | INQUIRY => "INQUIRY"
  end.

(** The dynamically typed values that flow through a [Gateway]. *)
Inductive value : Type :=
| VNone
| VStr (s : string)
| VInt (z : Z)
| VFloat (f : float)
| VAction (a : Action).

Definition type_name (v : value) : string :=
  match v with
  | VNone => "NoneType"
  | VStr _ => "str"
  | VInt _ => "int"
  | VFloat _ => "float"
  | VAction _ => "Action"
  end.

(** [bool(v)] *)
Definition truthy (v : value) : bool :=
  match v with
  | VNone => false
  | VStr s => negb (String.eqb s "")
  | VInt z => negb (z =? 0)%Z
  | VFloat f => negb (PrimFloat.eqb f 0%float)
  | VAction _ => true
  end.

(** [v == 1]; a member of a plain [Enum] equals no number. *)
Definition equals_1 (v : value) : bool :=
  match v with
  | VInt z => (z =? 1)%Z
  | VFloat f => PrimFloat.eqb f 1%float
  | _ => false
  end.

Definition no_attribute (v : value) (attr : string) : exn :=
  AttributeError ("'" ++ type_name v ++ "' object has no attribute '" ++ attr ++ "'").

(** [v.value] *)
Definition attr_value (v : value) : result value :=
  match v with
  | VAction a => Ok (VInt (Action_value a))
  | _ => Raise (no_attribute v "value")
  end.

(** The receiver of [key.encode("utf-8")] must be a [str]. *)
Definition encode_receiver (v : value) : result string :=
  match v with
  | VStr s => Ok s
  | _ => Raise (no_attribute v "encode")
  end.

(** [l[0]] *)
Definition item0 {A : Type} (l : list A) : result A :=
  match l with
  | x :: _ => Ok x
  | [] => Raise (IndexError "list index out of range")
  end.

(** ** dict: insertion-ordered, keys unique *)

Definition dict (V : Type) : Type := list (string * V).

Fixpoint dict_get {V : Type} (d : dict V) (k : string) : option V :=
  match d with
  | [] => None
  | (k', v) :: r => if String.eqb k' k then Some v else dict_get r k
  end.

(** [k in d] *)
Definition dict_mem {V : Type} (d : dict V) (k : string) : bool :=
  match dict_get d k with Some _ => true | None => false end.

(** [d[k] = v] *)
Fixpoint dict_set {V : Type} (d : dict V) (k : string) (v : V) : dict V :=
  match d with
  | [] => [(k, v)]
  | (k', v') :: r =>
    if String.eqb k' k then (k', v) :: r else (k', v') :: dict_set r k v
  end.

(** [d[k]] *)
Definition dict_getitem {V : Type} (d : dict V) (k : string) : result V :=
  match dict_get d k with
  | Some v => Ok v
  | None => Raise (KeyError k)
  end.

Fixpoint dict_del {V : Type} (d : dict V) (k : string) : dict V :=
  match d with
  | [] => []
  | (k', v) :: r => if String.eqb k' k then r else (k', v) :: dict_del r k
  end.

(** [d.pop(k)]: the value and the dictionary left. *)
Definition dict_pop {V : Type} (d : dict V) (k : string) : result (V * dict V) :=
  match dict_get d k with
  | Some v => Ok (v, dict_del d k)
  | None => Raise (KeyError k)
  end.

(** [dict(pairs)] and dict comprehensions over a sequence of pairs. *)
Definition dict_of_pairs {V : Type} (l : list (string * V)) : dict V :=
  fold_left (fun d kv => dict_set d (fst kv) (snd kv)) l [].

(** ** str helpers *)

(** [s.split(c)] for a one-character separator *)
Fixpoint split_on (c : ascii) (s : string) : list string :=
  match s with
  | EmptyString => [EmptyString]
  | String a r =>
    if Ascii.eqb a c then EmptyString :: split_on c r
    else match split_on c r with
         | h :: t => String a h :: t
         | [] => [String a EmptyString]
         end
  end.

(** [s.split(c, 1)]: [None] when [c] does not occur (a one-element list in
    Python), otherwise the text before and after the first [c]. *)
Fixpoint split_once (c : ascii) (s : string) : option (string * string) :=
  match s with
  | EmptyString => None
  | String a r =>
    if Ascii.eqb a c then Some (EmptyString, r)
    else match split_once c r with
         | Some (h, t) => Some (String a h, t)
         | None => None
         end
  end.

(** [s.replace('+', ' ')] *)
Fixpoint replace_plus (s : string) : string :=
  match s with
  | EmptyString => EmptyString
  | String a r =>
    String (if Ascii.eqb a "+"%char then " "%char else a) (replace_plus r)
  end.

(** ** The environment: libraries, files and clock

    What the package calls but does not define.  Each field stands for
    the library function of the same name, with failures as [Raise]. *)

(** The six components of [urllib.parse.urlparse]'s result. *)
Record ParseResult : Type := {
  scheme : string;
  netloc : string;
  path : string;
  params : string;
  query : string;
  fragment : string
}.

(** An opened [zipfile.ZipFile]. *)
Record ZipArchive : Type := {
  namelist : list string;
  zip_read : string -> result bytes
}.

Class Environment : Type := {
  (** [urllib.parse.urlparse] *)
  urlparse : string -> result ParseResult;
  (** [urllib.parse.unquote] with its defaults ([utf-8], [replace]) *)
  unquote : string -> string;
  (** [urllib.parse.quote_plus(s, safe)], first argument [safe] *)
  quote_plus : string -> string -> string;
  (** [str.strip()] *)
  str_strip : string -> string;
  (** [str.translate(table)], the one-argument method of Python 3 *)
  translate_table : string -> value -> result string;
  (** [repr] of a [float] *)
  float_repr : float -> string;
  (** [iso4217.Currency(code).number] *)
  Currency_number : string -> result Z;
  (** [jks.KeyStore.load(path, passphrase).secret_keys], name to key bytes *)
  KeyStore_load : string -> string -> result (dict bytes);
  (** [pyDes.triple_des(key, ECB, padmode=PAD_PKCS5)]: its [decrypt] *)
  triple_des : bytes -> result (bytes -> result bytes);
  (** [open(path, "rb").read()] *)
  read_binary : string -> result bytes;
  (** [ZipFile(io.BytesIO(data))] *)
  ZipFile : bytes -> result ZipArchive;
  (** [ET.fromstring(text)]: tag and text of each child of the root *)
  ET_fromstring : bytes -> result (list (string * value));
  (** [int(time.time())] *)
  time_now : Z
}.

(** [str(v)], also what an f-string field renders. *)
Definition py_str `{Environment} (v : value) : string :=
  match v with
  | VNone => "None"
  | VStr s => s
  | VInt z => str_of_int z
  | VFloat f => float_repr f
  | VAction a => "Action." ++ Action_name a
  end.

(** ** util.py *)

(** The denylist; character 34 is the double quote. *)
Definition FILTER_CHARS : string :=
  "!#$%^&*()+[]\';,{}|" ++ String (ascii_of_nat 34) ":<>?~`".

Definition LANG_LOOKUP : dict string := [("en", "USA"); ("ar", "ARA")].

(** [str.translate]: the Python 3 method takes exactly one argument. *)
Definition str_translate `{Environment} (self : string) (args : list value)
  : result string :=
  match args with
  | [table] => translate_table self table
  | _ => Raise (TypeError ("translate() takes exactly one argument ("
                           ++ str_of_nat (length args) ++ " given)"))
  end.

Section Util.
Context `{Environment}.

(** [validate_gw_url(s)] *)
Definition validate_gw_url (s : string) : result string :=
  u <- urlparse s ;;
  if negb (existsb (String.eqb (scheme u)) ["http"; "https"])
  then Raise (InvalidUrl "Scheme should be http or https")
  else if negb (String.eqb (query u) "")
  then Raise (InvalidUrl "URL cannot have a query string")
  else Ok s.

(** [sanitize(text)]: [text.strip().translate(None, FILTER_CHARS)] *)
Definition sanitize (text : string) : result string :=
  str_translate (str_strip text) [VNone; VStr FILTER_CHARS].

(** [load_keystore(keystore_path, key_name, passphrase)] *)
Definition load_keystore (keystore_path key_name passphrase : string)
  : result bytes :=
  ks <- KeyStore_load keystore_path passphrase ;;
  match dict_get ks key_name with
  | Some pk => Ok pk
  | None => Raise KeyNotFound
  end.

(** [read_resource_file(resource_path, keystore_path, alias)] *)
Definition read_resource_file (resource_path keystore_path alias : string)
  : result bytes :=
  pgkey <- load_keystore keystore_path "pgkey" "password" ;;
  crypto <- triple_des pgkey ;;
  f <- read_binary resource_path ;;
  resource_data <- crypto f ;;
  zip_data <- ZipFile resource_data ;;
  if negb (existsb (String.eqb (alias ++ ".xml")) (namelist zip_data))
  then Raise (InvalidAlias alias (namelist zip_data))
  else
    entry <- zip_read zip_data (alias ++ ".xml") ;;
    crypto entry.

End Util.

(** [all(getattr(self, i) for i in props)], left to right, stopping at the
    first falsy attribute. *)
Fixpoint all_set {Self : Type} (getattr : Self -> string -> result value)
  (self : Self) (props : list string) : result bool :=
  match props with
  | [] => Ok true
  | i :: r =>
    v <- getattr self i ;;
    if truthy v then all_set getattr self r else Ok false
  end.

(** [check_if_set(props)(f)]: the wrapped method.  [f] maps the instance to
    its result and the instance it leaves; the wrapper calls [f] and drops
    what it returns, so a call that does not raise evaluates to [None]. *)
Definition check_if_set {Self A : Type}
  (getattr : Self -> string -> result value) (props : list string)
  (f_name : string) (f : Self -> result A * Self)
  : Self -> result value * Self :=
  fun self =>
    match all_set getattr self props with
    | Raise e => (Raise e, self)
    | Ok true => let (r, self') := f self in (r ;;; Ok VNone, self')
    | Ok false =>
      (Raise (AttributeError (join "," props ++ " must be set before "
                              ++ f_name ++ " can be called")), self)
    end.

(** ** pyipay.py: the Gateway class *)

(** The instance attributes.  [tracking_id] is [None] when the attribute
    does not exist on the instance (the constructor assigns it on one
    branch only); every other attribute is assigned by a constructor that
    returns. *)
Record Gateway : Type := {
  lang : string;
  currency : Z;
  amount : value;
  password : value;
  key : value;
  portal_id : value;
  _pgw_url : value;
  tracking_id : option value;
  _udf1 : string;
  _udf2 : string;
  _udf3 : string;
  _udf4 : string;
  _udf5 : string;
  _response_url : value;
  _error_url : value
}.

Definition with_udf (n : nat) (s : string) (g : Gateway) : Gateway :=
  {| lang := lang g; currency := currency g; amount := amount g;
     password := password g; key := key g; portal_id := portal_id g;
     _pgw_url := _pgw_url g; tracking_id := tracking_id g;
     _udf1 := if n =? 1 then s else _udf1 g;
     _udf2 := if n =? 2 then s else _udf2 g;
     _udf3 := if n =? 3 then s else _udf3 g;
     _udf4 := if n =? 4 then s else _udf4 g;
     _udf5 := if n =? 5 then s else _udf5 g;
     _response_url := _response_url g; _error_url := _error_url g |}.

Definition with_response_url (v : value) (g : Gateway) : Gateway :=
  {| lang := lang g; currency := currency g; amount := amount g;
     password := password g; key := key g; portal_id := portal_id g;
     _pgw_url := _pgw_url g; tracking_id := tracking_id g;
     _udf1 := _udf1 g; _udf2 := _udf2 g; _udf3 := _udf3 g;
     _udf4 := _udf4 g; _udf5 := _udf5 g;
     _response_url := v; _error_url := _error_url g |}.

Definition with_error_url (v : value) (g : Gateway) : Gateway :=
  {| lang := lang g; currency := currency g; amount := amount g;
     password := password g; key := key g; portal_id := portal_id g;
     _pgw_url := _pgw_url g; tracking_id := tracking_id g;
     _udf1 := _udf1 g; _udf2 := _udf2 g; _udf3 := _udf3 g;
     _udf4 := _udf4 g; _udf5 := _udf5 g;
     _response_url := _response_url g; _error_url := v |}.

(** A method that may assign attributes: result and instance left. *)
Definition method (A : Type) : Type := Gateway -> result A * Gateway.

(** [self.<attr> = <expr>]: nothing is assigned when [<expr>] raises. *)
Definition assign {A : Type} (e : result A) (store : A -> Gateway -> Gateway)
  : method unit :=
  fun self =>
    match e with
    | Ok a => (Ok tt, store a self)
    | Raise x => (Raise x, self)
    end.

Section GatewayClass.
Context `{Environment} `{BlockCipher}.

(** [Gateway.__init__] *)
Definition __init__ (keystore resource alias : string) (amount : value)
  (lang currency : string) (tracking_id : value) : result Gateway :=
  let lang :=
    match dict_get LANG_LOOKUP lang with Some l => l | None => "USA" end in
  number <- Currency_number currency ;;
  terminal_configuration <- read_resource_file resource keystore alias ;;
  root <- ET_fromstring terminal_configuration ;;
  let terminal := dict_of_pairs root in
  password <- dict_getitem terminal "password" ;;
  key <- dict_getitem terminal "resourceKey" ;;
  portal_id <- dict_getitem terminal "id" ;;
  pgw_url <- dict_getitem terminal "webaddress" ;;
  Ok {| lang := lang; currency := number; amount := amount;
        password := password; key := key; portal_id := portal_id;
        _pgw_url := pgw_url;
        tracking_id :=
          match tracking_id with
          | VNone => Some (VStr (str_of_int time_now))
          | _ => None
          end;
        _udf1 := ""; _udf2 := ""; _udf3 := ""; _udf4 := ""; _udf5 := "";
        _response_url := VNone; _error_url := VNone |}.

Definition get_udf1 (self : Gateway) : value := VStr (_udf1 self).
Definition get_udf2 (self : Gateway) : value := VStr (_udf2 self).
Definition get_udf3 (self : Gateway) : value := VStr (_udf3 self).
Definition get_udf4 (self : Gateway) : value := VStr (_udf4 self).
Definition get_udf5 (self : Gateway) : value := VStr (_udf5 self).

Definition set_udf1 (s : string) : method unit := assign (sanitize s) (with_udf 1).
Definition set_udf2 (s : string) : method unit := assign (sanitize s) (with_udf 2).
Definition set_udf3 (s : string) : method unit := assign (sanitize s) (with_udf 3).
Definition set_udf4 (s : string) : method unit := assign (sanitize s) (with_udf 4).
Definition set_udf5 (s : string) : method unit := assign (sanitize s) (with_udf 5).

Definition set_response_url (s : string) : method unit :=
  assign (validate_gw_url s) (fun u => with_response_url (VStr u)).

Definition set_error_url (s : string) : method unit :=
  assign (validate_gw_url s) (fun u => with_error_url (VStr u)).

Definition get_response_url (self : Gateway) : value := _response_url self.
Definition get_error_url (self : Gateway) : value := _error_url self.

(** [self.tracking_id] *)
Definition get_tracking_id (self : Gateway) : result value :=
  match tracking_id self with
  | Some v => Ok v
  | None =>
    Raise (AttributeError "'Gateway' object has no attribute 'tracking_id'")
  end.

(** [getattr(self, name)] over the data attributes and the properties. *)
Definition getattr (self : Gateway) (name : string) : result value :=
  let attrs : list (string * result value) :=
    [ ("lang", Ok (VStr (lang self)));
      ("currency", Ok (VInt (currency self)));
      ("amount", Ok (amount self));
      ("password", Ok (password self));
      ("key", Ok (key self));
      ("portal_id", Ok (portal_id self));
      ("_pgw_url", Ok (_pgw_url self));
      ("tracking_id", get_tracking_id self);
      ("_udf1", Ok (VStr (_udf1 self)));
      ("_udf2", Ok (VStr (_udf2 self)));
      ("_udf3", Ok (VStr (_udf3 self)));
      ("_udf4", Ok (VStr (_udf4 self)));
      ("_udf5", Ok (VStr (_udf5 self)));
      ("_response_url", Ok (_response_url self));
      ("_error_url", Ok (_error_url self));
      ("udf1", Ok (get_udf1 self));
      ("udf2", Ok (get_udf2 self));
      ("udf3", Ok (get_udf3 self));
      ("udf4", Ok (get_udf4 self));
      ("udf5", Ok (get_udf5 self));
      ("response_url", Ok (get_response_url self));
      ("error_url", Ok (get_error_url self)) ] in
  match dict_get attrs name with
  | Some r => r
  | None =>
    Raise (AttributeError ("'Gateway' object has no attribute '" ++ name ++ "'"))
  end.

(** [Gateway._build_param_dict] *)
Definition _build_param_dict (self : Gateway) (action : value)
  : result (dict value) :=
  if equals_1 action then
    trackid <- get_tracking_id self ;;
    Ok (dict_of_pairs
          [ ("action", action);
            ("id", portal_id self);
            ("password", password self);
            ("langid", VStr (lang self));
            ("currencycode", VInt (currency self));
            ("trackid", trackid);
            ("amt", amount self);
            ("udf1", get_udf1 self);
            ("udf2", get_udf2 self);
            ("udf3", get_udf3 self);
            ("udf4", get_udf4 self);
            ("udf5", get_udf5 self);
            ("responseURL", get_response_url self);
            ("errorURL", get_error_url self) ])
  else Ok (dict_of_pairs []).

(** [parse.urlencode(query, safe=safe)] over a dict *)
Definition urlencode (query : dict value) (safe : string) : string :=
  join "&" (map (fun kv => (quote_plus safe (fst kv) ++ "="
                            ++ quote_plus safe (py_str (snd kv)))%string) query).

(** [Gateway._build_payload] *)
Definition _build_payload (self : Gateway) (action : value) : result string :=
  code <- attr_value action ;;
  params <- _build_param_dict self code ;;
  let d := urlencode (filter (fun kv => truthy (snd kv)) params) ":/" in
  k <- encode_receiver (key self) ;;
  payload <- encrypt_payload d k ;;
  bytes_decode payload.

(** [Gateway._get_redirect_url] *)
Definition _get_redirect_url (self : Gateway) (action : value) : result string :=
  code <- attr_value action ;;
  payload <- _build_payload self code ;;
  let gw_url := (py_str (_pgw_url self)
                 ++ "/PaymentHTTP.htm?param=paymentInit&trandata="
                 ++ payload)%string in
  Ok (gw_url ++ "&tranportalId=" ++ py_str (portal_id self)
      ++ "&responseURL=" ++ py_str (get_response_url self)
      ++ "&errorURL=" ++ py_str (get_error_url self))%string.

(** [urllib.parse.parse_qsl(qs)] with its defaults: fields are separated
    by [&] (releases older than the 2021 security fix also split at [;]),
    a field without [=] or with an empty value is skipped, and [+] and
    percent escapes are decoded in names and values. *)
Definition parse_qsl (qs : string) : list (string * string) :=
  flat_map
    (fun name_value =>
       match split_once "="%char name_value with
       | Some (n, v) =>
         if String.eqb v "" then []
         else [(unquote (replace_plus n), unquote (replace_plus v))]
       | None => []
       end)
    (split_on "&"%char qs).

(** [urllib.parse.parse_qs(qs)] *)
Definition parse_qs (qs : string) : dict (list string) :=
  fold_left
    (fun d nv =>
       match dict_get d (fst nv) with
       | Some l => dict_set d (fst nv) (l ++ [snd nv])
       | None => dict_set d (fst nv) [snd nv]
       end)
    (parse_qsl qs) [].

(** [Gateway._parse_response] *)
Definition _parse_response (self : Gateway) (raw_response : string)
  : result (dict (list string) * dict (list string)) :=
  let results := parse_qs raw_response in
  match dict_pop results "trandata" with
  | Raise (KeyError _) =>
    Raise (InvalidGatewayResponse
             "Invalid response from the gateway, missing encrypted data")
  | Raise e => Raise e
  | Ok (encrypted_payload, results) =>
    first <- item0 encrypted_payload ;;
    k <- encode_receiver (key self) ;;
    text <- decrypt_payload (Str first) k ;;
    Ok (results, parse_qs text)
  end.

(** [{k: v[0] for k, v in common.items()}] *)
Fixpoint first_values (items : list (string * list string)) (d : dict string)
  : result (dict string) :=
  match items with
  | [] => Ok d
  | (k, v) :: r => x <- item0 v ;; first_values r (dict_set d k x)
  end.

(** [for k, v in decrypted.items(): if k not in d: d[k] = v[0]] *)
Fixpoint add_missing (items : list (string * list string)) (d : dict string)
  : result (dict string) :=
  match items with
  | [] => Ok d
  | (k, v) :: r =>
    if dict_mem d k then add_missing r d
    else x <- item0 v ;; add_missing r (dict_set d k x)
  end.

(** [Gateway.get_result] *)
Definition get_result (self : Gateway) (response : string)
  : result (dict string) :=
  cd <- _parse_response self response ;;
  d <- first_values (fst cd) [] ;;
  add_missing (snd cd) d.

(** [Gateway.generate_purchase_request], the decorated method *)
Definition generate_purchase_request : Gateway -> result value * Gateway :=
  check_if_set getattr ["response_url"; "error_url"]
    "generate_purchase_request"
    (fun self => (_get_redirect_url self (VAction PURCHASE), self)).

End GatewayClass.


(** ** A concrete world for the examples

    One instance of the environment, on which the statements below are
    exercised: a keystore holding [pgkey], a resource archive with the
    entry [terminal.xml] stored in the clear, and library functions that
    cover the inputs of the examples (ASCII text; [repr] of a float is
    tabulated for the amounts used; percent escapes are decoded as they
    stand).  The terminal document is given by its parsed children. *)
Module Example.

Definition is_alpha (a : ascii) : bool :=
  let n := nat_of_ascii a in
  ((65 <=? n) && (n <=? 90)) || ((97 <=? n) && (n <=? 122)).

Definition is_digit (a : ascii) : bool :=
  let n := nat_of_ascii a in (48 <=? n) && (n <=? 57).

Fixpoint mem_char (a : ascii) (s : string) : bool :=
  match s with
  | EmptyString => false
  | String b r => Ascii.eqb a b || mem_char a r
  end.

Fixpoint all_chars (f : ascii -> bool) (s : string) : bool :=
  match s with
  | EmptyString => true
  | String a r => f a && all_chars f r
  end.

Fixpoint map_chars (f : ascii -> ascii) (s : string) : string :=
  match s with
  | EmptyString => EmptyString
  | String a r => String (f a) (map_chars f r)
  end.

Definition lower (a : ascii) : ascii :=
  let n := nat_of_ascii a in
  if (65 <=? n) && (n <=? 90) then ascii_of_nat (n + 32) else a.

(** The text before the first character satisfying [stop], and the rest. *)
Fixpoint span (stop : ascii -> bool) (s : string) : string * string :=
  match s with
  | EmptyString => (EmptyString, EmptyString)
  | String a r =>
    if stop a then (EmptyString, s)
    else let (h, t) := span stop r in (String a h, t)
  end.

Definition split_scheme (url : string) : string * string :=
  match split_once ":"%char url with
  | Some (String a pre, rest) =>
    if is_alpha a
       && all_chars (fun c => is_alpha c || is_digit c || mem_char c "+-.") pre
    then (map_chars lower (String a pre), rest)
    else (EmptyString, url)
  | _ => (EmptyString, url)
  end.

Definition urlparse (url : string) : result ParseResult :=
  let (sch, rest) := split_scheme url in
  let (loc, rest) :=
    match rest with
    | String "/" (String "/" r) => span (fun c => mem_char c "/?#") r
    | _ => (EmptyString, rest)
    end in
  if xorb (mem_char "["%char loc) (mem_char "]"%char loc)
  then Raise (ValueError "Invalid IPv6 URL")
  else
    let (rest, frag) :=
      match split_once "#"%char rest with
      | Some (a, b) => (a, b)
      | None => (rest, EmptyString)
      end in
    let (pth, qry) :=
      match split_once "?"%char rest with
      | Some (a, b) => (a, b)
      | None => (rest, EmptyString)
      end in
    Ok {| scheme := sch; netloc := loc; path := pth; params := EmptyString;
          query := qry; fragment := frag |}.

Fixpoint unquote (s : string) : string :=
  match s with
  | EmptyString => EmptyString
  | String a t =>
    if Ascii.eqb a "%"%char then
      match t with
      | String h (String l r) =>
        match unhex_digit h, unhex_digit l with
        | Some x, Some y => String (ascii_of_N (16 * x + y)) (unquote r)
        | _, _ => String a (unquote t)
        end
      | _ => String a (unquote t)
      end
    else String a (unquote t)
  end.

Definition upper_hexdigit (n : N) : ascii :=
  nth (N.to_nat n) (list_ascii_of_string "0123456789ABCDEF") "0"%char.

Definition quote_char (safe : string) (a : ascii) : string :=
  if Ascii.eqb a " "%char then "+"
  else if is_alpha a || is_digit a || mem_char a "_.-~" || mem_char a safe
  then String a EmptyString
  else String "%" (String (upper_hexdigit (byte_val a / 16))
                     (String (upper_hexdigit (byte_val a mod 16)) EmptyString)).

Fixpoint quote_plus (safe s : string) : string :=
  match s with
  | EmptyString => EmptyString
  | String a r => (quote_char safe a ++ quote_plus safe r)%string
  end.

Definition is_space (a : ascii) : bool :=
  let n := nat_of_ascii a in
  ((9 <=? n) && (n <=? 13)) || ((28 <=? n) && (n <=? 32)).

Fixpoint lstrip (l : list ascii) : list ascii :=
  match l with
  | a :: r => if is_space a then lstrip r else l
  | [] => []
  end.

Definition str_strip (s : string) : string :=
  string_of_list_ascii
    (rev (lstrip (rev (lstrip (list_ascii_of_string s))))).

Definition translate_table (s : string) (table : value) : result string :=
  match table with
  | VNone => Raise (TypeError "'NoneType' object is not subscriptable")
  | _ => Ok s
  end.

Definition float_repr (f : float) : string :=
  if PrimFloat.eqb f 10.5%float then "10.5"
  else if PrimFloat.eqb f 2.25%float then "2.25"
  else "0.0".

Definition Currency_number (code : string) : result Z :=
  if String.eqb code "KWD" then Ok 414%Z
  else if String.eqb code "USD" then Ok 840%Z
  else Raise (ValueError "not a valid Currency").

Definition pgkey : bytes := list_ascii_of_string "0123456789abcdefghijklmn".

Definition archive : ZipArchive :=
  {| namelist := ["terminal.xml"];
     zip_read := fun name =>
       if String.eqb name "terminal.xml" then Ok []
       else Raise (KeyError name) |}.

(** The tags of a complete terminal document. *)
Definition terminal : list (string * value) :=
  [ ("id", VStr "T001");
    ("password", VStr "pw");
    ("resourceKey", VStr "0123456789abcdef");
    ("webaddress", VStr "https://gw.example.com") ].

Definition world (children : list (string * value)) : Environment :=
  Build_Environment
    urlparse unquote quote_plus str_strip translate_table float_repr
    Currency_number
    (fun _ _ => Ok [("pgkey", pgkey)])
    (fun _ => Ok (fun data => Ok data))
    (fun _ => Ok [])
    (fun _ => Ok archive)
    (fun _ => Ok children)
    1600000000%Z.

Definition env : Environment := world terminal.

Definition key16 : string := "0123456789abcdef".
Definition key24 : string := "0123456789abcdefghijklmn".

(** [Gateway("keystore.bin", "resource.cgn", "terminal", 10.5)] in [env]. *)
Definition gateway : Gateway :=
  {| lang := "USA"; currency := 414%Z; amount := VFloat 10.5%float;
     password := VStr "pw"; key := VStr key16; portal_id := VStr "T001";
     _pgw_url := VStr "https://gw.example.com";
     tracking_id := Some (VStr "1600000000");
     _udf1 := ""; _udf2 := ""; _udf3 := ""; _udf4 := ""; _udf5 := "";
     _response_url := VNone; _error_url := VNone |}.

(** The same instance after both callback URLs were assigned. *)
Definition gateway_with_urls : Gateway :=
  with_error_url (VStr "https://example.com/error")
    (with_response_url (VStr "https://example.com/response") gateway).

(** The instance after only [response_url] was assigned. *)
Definition gateway_with_response_url : Gateway :=
  with_response_url (VStr "https://example.com/response") gateway.

(** A terminal document without its [password] tag. *)
Definition terminal_without_password : list (string * value) :=
  [ ("id", VStr "T001");
    ("resourceKey", VStr "0123456789abcdef");
    ("webaddress", VStr "https://gw.example.com") ].

(** AES-128-CBC ciphertexts under [key16] (key and IV), in hexadecimal. *)
Definition hex_foo2_trandata2 : string :=
  "44fed1901cfb1eefdc9054a2291cc83c7667ab03d2b2e37a9a1e0e6c9e10c308".
Definition hex_result_captured : string := "1199d92739bc18c460ce59e31ea5bdb9".
Definition hex_foo2_foo3 : string := "47553fff902be95f5d1f25863082ffc4".

End Example.


(** ** Notions used in the statements *)

(** The values bound to [name] in a list of fields, in order. *)
Definition occurrences (name : string) (fields : list (string * string))
  : list string :=
  map snd (filter (fun nv => String.eqb (fst nv) name) fields).

(** [needle in text] *)
Fixpoint contains (needle text : string) : bool :=
  String.prefix needle text
  || match text with
     | EmptyString => false
     | String _ r => contains needle r
     end.

(** The tags the constructor reads from the terminal document, in the
    order it reads them. *)
Definition required_keys : list string :=
  ["password"; "resourceKey"; "id"; "webaddress"].

(** The first required tag that no child of the document carries. *)
Definition first_missing (children : list (string * value)) : option string :=
  find (fun k => negb (existsb (String.eqb k) (map fst children)))
       required_keys.


(** A lower-case hexadecimal digit, as [binascii.hexlify] writes them. *)
Definition is_lower_hex (a : ascii) : bool :=
  let n := byte_val a in
  ((48 <=? n)%N && (n <=? 57)%N) || ((97 <=? n)%N && (n <=? 102)%N).

(** The value of the last pair of [l] whose key is [k]. *)
Fixpoint last_binding {V : Type} (l : list (string * V)) (k : string)
  : option V :=
  match l with
  | [] => None
  | (k0, v) :: r =>
    match last_binding r k with
    | Some v' => Some v'
    | None => if String.eqb k0 k then Some v else None
    end
  end.

(** The terminal configuration, the transaction fields and the UDFs of two
    instances agree. *)
Definition same_terminal (g g' : Gateway) : Prop :=
  lang g' = lang g /\ currency g' = currency g /\ amount g' = amount g /\
  password g' = password g /\ key g' = key g /\
  portal_id g' = portal_id g /\ _pgw_url g' = _pgw_url g /\
  tracking_id g' = tracking_id g /\
  _udf1 g' = _udf1 g /\ _udf2 g' = _udf2 g /\ _udf3 g' = _udf3 g /\
  _udf4 g' = _udf4 g /\ _udf5 g' = _udf5 g.

Section Calls.
Context `{Environment} `{BlockCipher}.

(** The calls on an instance that can assign its attributes: the property
    setters, and the decorated method. *)
Inductive call : Type :=
| Set_udf1 (s : string)
| Set_udf2 (s : string)
| Set_udf3 (s : string)
| Set_udf4 (s : string)
| Set_udf5 (s : string)
| Set_response_url (s : string)
| Set_error_url (s : string)
| Generate_purchase_request.

(** The instance a call leaves, whether it returns or raises. *)
Definition after (c : call) (self : Gateway) : Gateway :=
  match c with
  | Set_udf1 s => snd (set_udf1 s self)
  | Set_udf2 s => snd (set_udf2 s self)
  | Set_udf3 s => snd (set_udf3 s self)
  | Set_udf4 s => snd (set_udf4 s self)
  | Set_udf5 s => snd (set_udf5 s self)
  | Set_response_url s => snd (set_response_url s self)
  | Set_error_url s => snd (set_error_url s self)
  | Generate_purchase_request => snd (generate_purchase_request self)
  end.

Definition after_all (cs : list call) (self : Gateway) : Gateway :=
  fold_left (fun g c => after c g) cs self.

(** A callback URL attribute is unset, or holds a string that
    [validate_gw_url] accepts. *)
Definition url_ok (v : value) : Prop :=
  v = VNone \/ exists s, v = VStr s /\ validate_gw_url s = Ok s.

End Calls.


(** * Properties *)

(** ** The error monad *)

Lemma bind_ok_inv {A B : Type} (m : result A) (k : A -> result B) (b : B) :
  bind m k = Ok b -> exists a, m = Ok a /\ k a = Ok b.
Proof. destruct m as [a|e]; simpl; [eauto | discriminate]. Qed.

(** ** binascii: unhexlify inverts hexlify *)

Lemma unhex_hex_byte (a : ascii) :
  unhex_digit (hexdigit (byte_val a / 16)) = Some (byte_val a / 16)%N /\
  unhex_digit (hexdigit (byte_val a mod 16)) = Some (byte_val a mod 16)%N /\
  ascii_of_N (16 * (byte_val a / 16) + byte_val a mod 16) = a.
Proof.
  destruct a as [[] [] [] [] [] [] [] []]; vm_compute; auto.
Qed.

Lemma hexlify_length (b : bytes) : length (hexlify b) = 2 * length b.
Proof.
  unfold hexlify.
  induction b as [|a b IH]; cbn [flat_map app length]; [reflexivity|].
  rewrite IH. lia.
Qed.

Lemma unhex_pairs_hexlify (b : bytes) : unhex_pairs (hexlify b) = Ok b.
Proof.
  induction b as [|a b IH]; [reflexivity|].
  change (hexlify (a :: b))
    with (hexdigit (byte_val a / 16) :: hexdigit (byte_val a mod 16) :: hexlify b).
  destruct (unhex_hex_byte a) as (Hh & Hl & Ha).
  cbn [unhex_pairs]. rewrite Hh, Hl, IH. cbn [bind]. now rewrite Ha.
Qed.

Lemma unhexlify_hexlify (b : bytes) : unhexlify (Bytes (hexlify b)) = Ok b.
Proof.
  unfold unhexlify. rewrite hexlify_length.
  replace (Nat.odd (2 * length b)) with false.
  - apply unhex_pairs_hexlify.
  - symmetry. rewrite <- Nat.negb_even, Nat.even_mul. reflexivity.
Qed.

(** ** Padding: unpad inverts pad *)

Lemma pad_length_mod (data : bytes) : length (pad data 16) mod 16 = 0.
Proof.
  unfold pad. rewrite length_app, repeat_length.
  pose proof (Nat.mod_upper_bound (length data) 16 ltac:(lia)) as Hlt.
  pose proof (Nat.div_mod_eq (length data) 16) as Hdm.
  replace (length data + (16 - length data mod 16))
    with (0 + (length data / 16 + 1) * 16) by lia.
  now rewrite Nat.Div0.mod_add.
Qed.

Lemma forallb_eqb_repeat (a : ascii) (n : nat) :
  forallb (Ascii.eqb a) (repeat a n) = true.
Proof.
  induction n as [|n IH]; simpl; [reflexivity|].
  now rewrite Ascii.eqb_refl, IH.
Qed.

Lemma last_app_repeat (data : bytes) (a : ascii) (n : nat) :
  0 < n -> last (data ++ repeat a n) Ascii.zero = a.
Proof.
  intros Hn. destruct n as [|n]; [lia|].
  replace (repeat a (S n)) with (repeat a n ++ [a]).
  - now rewrite app_assoc, last_last.
  - clear. induction n as [|n IH]; simpl; [reflexivity|]. now rewrite IH.
Qed.

Lemma unpad_pad (data : bytes) : unpad (pad data 16) 16 = Ok data.
Proof.
  pose proof (pad_length_mod data) as Hmod.
  pose proof (Nat.mod_upper_bound (length data) 16 ltac:(lia)) as Hlt.
  unfold unpad. rewrite Hmod.
  unfold pad in *. set (n := 16 - length data mod 16) in *.
  assert (Hn : 1 <= n <= 16) by (subst n; lia).
  rewrite length_app, repeat_length in *.
  rewrite last_app_repeat by lia.
  rewrite nat_ascii_embedding by lia.
  replace (length data + n - n) with (length data) by lia.
  destruct (length data + n =? 0) eqn:E0; [apply Nat.eqb_eq in E0; lia|].
  cbn [Nat.eqb negb].
  replace (n <? 1) with false by (symmetry; apply Nat.ltb_ge; lia).
  replace (Nat.min 16 (length data + n) <? n) with false
    by (symmetry; apply Nat.ltb_ge; lia).
  cbn [orb].
  rewrite skipn_app, skipn_all, Nat.sub_diag. cbn [skipn app].
  rewrite forallb_eqb_repeat. cbn [negb].
  rewrite firstn_app, firstn_all, Nat.sub_diag. cbn [firstn].
  now rewrite app_nil_r.
Qed.

Lemma xor_byte_cancel (a b : ascii) : xor_byte (xor_byte a b) b = a.
Proof.
  destruct a, b; simpl.
  repeat rewrite xorb_assoc; repeat rewrite xorb_nilpotent;
    repeat rewrite xorb_false_r; reflexivity.
Qed.

(** ** AES: the inverse cipher inverts the cipher *)

Module AESFacts.
Import AES.

Lemma inv_sub_byte_sub_byte (a : ascii) : inv_sub_byte (sub_byte a) = a.
Proof.
  destruct a as [[] [] [] [] [] [] [] []]; vm_compute; reflexivity.
Qed.

Lemma inv_shift_rows_shift_rows (s : state) : inv_shift_rows (shift_rows s) = s.
Proof.
  destruct s as [[[[[[a0 a1] a2] a3] [[[b0 b1] b2] b3]] [[[c0 c1] c2] c3]] [[[d0 d1] d2] d3]].
  reflexivity.
Qed.

Lemma inv_mix_column_mix_column (w : word) : inv_mix_column (mix_column w) = w.
Proof.
  destruct w as [[[a b] c] d].
  destruct a as [a0 a1 a2 a3 a4 a5 a6 a7], b as [b0 b1 b2 b3 b4 b5 b6 b7],
           c as [c0 c1 c2 c3 c4 c5 c6 c7], d as [d0 d1 d2 d3 d4 d5 d6 d7].
  cbv [inv_mix_column mix_column xor4 mul2 mul3 mul9 mul11 mul13 mul14 xtime xor_byte].
  repeat f_equal; btauto.
Qed.

Lemma xor_word_cancel (x y : word) : xor_word (xor_word x y) y = x.
Proof.
  destruct x as [[[a b] c] d], y as [[[a' b'] c'] d']; simpl.
  now rewrite !xor_byte_cancel.
Qed.

Lemma add_round_key_cancel (rk s : state) :
  add_round_key rk (add_round_key rk s) = s.
Proof.
  destruct rk as [[[k0 k1] k2] k3], s as [[[c0 c1] c2] c3]; simpl.
  now rewrite !xor_word_cancel.
Qed.

Lemma inv_sub_bytes_sub_bytes (s : state) : inv_sub_bytes (sub_bytes s) = s.
Proof.
  destruct s as [[[[[[a0 a1] a2] a3] [[[b0 b1] b2] b3]] [[[c0 c1] c2] c3]] [[[d0 d1] d2] d3]].
  cbv [inv_sub_bytes sub_bytes map_state map_word].
  now rewrite !inv_sub_byte_sub_byte.
Qed.

Lemma inv_mix_columns_mix_columns (s : state) :
  inv_mix_columns (mix_columns s) = s.
Proof.
  destruct s as [[[c0 c1] c2] c3].
  unfold inv_mix_columns, mix_columns, map_state.
  now rewrite !inv_mix_column_mix_column.
Qed.

Lemma inv_round_round (rk s : state) : inv_round rk (round rk s) = s.
Proof.
  unfold inv_round, round.
  now rewrite add_round_key_cancel, inv_mix_columns_mix_columns,
    inv_shift_rows_shift_rows, inv_sub_bytes_sub_bytes.
Qed.

Lemma inv_final_round_final_round (rk s : state) :
  inv_final_round rk (final_round rk s) = s.
Proof.
  unfold inv_final_round, final_round.
  now rewrite add_round_key_cancel, inv_shift_rows_shift_rows,
    inv_sub_bytes_sub_bytes.
Qed.

Lemma inv_rounds_rounds (rks : list state) :
  forall s, inv_rounds rks (rounds rks s) = s.
Proof.
  induction rks as [|rk r IH]; intros s; [reflexivity|].
  destruct r as [|rk' r'].
  - simpl. apply inv_final_round_final_round.
  - change (inv_round rk (inv_rounds (rk' :: r') (rounds (rk' :: r') (round rk s))) = s).
    rewrite IH. apply inv_round_round.
Qed.

Lemma inv_cipher_cipher (rks : list state) (s : state) :
  inv_cipher rks (cipher rks s) = s.
Proof.
  destruct rks as [|rk0 r]; [reflexivity|].
  unfold inv_cipher, cipher.
  now rewrite inv_rounds_rounds, add_round_key_cancel.
Qed.

Lemma state_of_block_of_state (s : state) :
  state_of_block (block_of_state s) = Some s.
Proof.
  destruct s as [[[[[[a0 a1] a2] a3] [[[b0 b1] b2] b3]] [[[c0 c1] c2] c3]] [[[d0 d1] d2] d3]].
  reflexivity.
Qed.

Lemma block_of_state_length (s : state) : length (block_of_state s) = 16.
Proof.
  destruct s as [[[[[[a0 a1] a2] a3] [[[b0 b1] b2] b3]] [[[c0 c1] c2] c3]] [[[d0 d1] d2] d3]].
  reflexivity.
Qed.

Lemma state_of_block_some (b : bytes) :
  length b = 16 -> exists s, state_of_block b = Some s /\ block_of_state s = b.
Proof.
  intros Hlen.
  do 16 (destruct b as [|? b]; [discriminate Hlen|]).
  destruct b; [|discriminate Hlen].
  eexists; split; reflexivity.
Qed.

Lemma encrypt_block_length (k b : bytes) :
  length b = 16 -> length (encrypt_block k b) = 16.
Proof.
  intros Hlen. destruct (state_of_block_some b Hlen) as [s [Hs _]].
  unfold encrypt_block. rewrite Hs. apply block_of_state_length.
Qed.

Lemma decrypt_block_encrypt_block (k b : bytes) :
  length b = 16 -> decrypt_block k (encrypt_block k b) = b.
Proof.
  intros Hlen. destruct (state_of_block_some b Hlen) as [s [Hs Hb]].
  unfold decrypt_block, encrypt_block. rewrite Hs.
  rewrite state_of_block_of_state, inv_cipher_cipher. exact Hb.
Qed.

End AESFacts.


(** The three example vectors of FIPS 197, appendix C. *)
Example aes128_vector :
  hexlify (AES.encrypt_block
             (map ascii_of_nat (seq 0 16))
             (map (fun i => ascii_of_nat (17 * i)) (seq 0 16)))
  = str_encode "69c4e0d86a7b0430d8cdb78070b4c55a".
Proof. vm_compute. reflexivity. Qed.

Example aes192_vector :
  hexlify (AES.encrypt_block
             (map ascii_of_nat (seq 0 24))
             (map (fun i => ascii_of_nat (17 * i)) (seq 0 16)))
  = str_encode "dda97ca4864cdfe06eaf70a0ec0d7191".
Proof. vm_compute. reflexivity. Qed.

Example aes256_vector :
  hexlify (AES.encrypt_block
             (map ascii_of_nat (seq 0 32))
             (map (fun i => ascii_of_nat (17 * i)) (seq 0 16)))
  = str_encode "8ea2b7ca516745bfeafc49904b496089".
Proof. vm_compute. reflexivity. Qed.

(** AES as a block cipher. *)
Definition aes : BlockCipher :=
  {| block_encrypt := AES.encrypt_block;
     block_decrypt := AES.decrypt_block;
     block_encrypt_length := fun k b _ Hb => AESFacts.encrypt_block_length k b Hb;
     block_decrypt_encrypt :=
       fun k b _ Hb => AESFacts.decrypt_block_encrypt_block k b Hb |}.

(** ** CBC mode and the payload transform *)

Lemma strxor_length (x y : bytes) :
  length (strxor x y) = Nat.min (length x) (length y).
Proof.
  revert y. induction x as [|a x IH]; intros [|b y]; simpl; auto.
Qed.

Lemma strxor_cancel (x y : bytes) :
  length x <= length y -> strxor (strxor x y) y = x.
Proof.
  revert y. induction x as [|a x IH]; intros [|b y] Hle; simpl in *;
    try reflexivity; try lia.
  rewrite xor_byte_cancel, IH by lia. reflexivity.
Qed.

Ltac take16 b H :=
  do 16 (destruct b as [|? b]; [discriminate H|]);
  destruct b; [|discriminate H].

Section CBCFacts.
Context `{BlockCipher}.

Lemma cbc_encrypt_blocks_app (k prev b rest : bytes) :
  length b = 16 ->
  cbc_encrypt_blocks k prev (b ++ rest)
  = block_encrypt k (strxor b prev)
    ++ cbc_encrypt_blocks k (block_encrypt k (strxor b prev)) rest.
Proof. intros Hb. take16 b Hb. reflexivity. Qed.

Lemma cbc_decrypt_blocks_app (k prev c rest : bytes) :
  length c = 16 ->
  cbc_decrypt_blocks k prev (c ++ rest)
  = strxor (block_decrypt k c) prev ++ cbc_decrypt_blocks k c rest.
Proof. intros Hc. take16 c Hc. reflexivity. Qed.

Lemma split_block (data : bytes) (n : nat) :
  length data = 16 * S n ->
  exists b rest, data = b ++ rest /\ length b = 16 /\ length rest = 16 * n.
Proof.
  intros Hlen. exists (firstn 16 data), (skipn 16 data).
  rewrite firstn_skipn, length_firstn, length_skipn.
  repeat split; lia.
Qed.

Lemma cbc_encrypt_blocks_length (k : bytes) (n : nat) :
  valid_key_size (length k) = true ->
  forall data prev, length data = 16 * n -> length prev = 16 ->
  length (cbc_encrypt_blocks k prev data) = length data.
Proof.
  intros Hk. induction n as [|n IH]; intros data prev Hlen Hprev.
  - destruct data; [reflexivity | discriminate Hlen].
  - destruct (split_block data n Hlen) as (b & rest & -> & Hb & Hrest).
    assert (Hx : length (strxor b prev) = 16)
      by (rewrite strxor_length; lia).
    rewrite cbc_encrypt_blocks_app, !length_app by assumption.
    rewrite IH by (auto using block_encrypt_length).
    rewrite block_encrypt_length by assumption. lia.
Qed.

Lemma cbc_decrypt_encrypt_blocks (k : bytes) (n : nat) :
  valid_key_size (length k) = true ->
  forall data prev, length data = 16 * n -> length prev = 16 ->
  cbc_decrypt_blocks k prev (cbc_encrypt_blocks k prev data) = data.
Proof.
  intros Hk. induction n as [|n IH]; intros data prev Hlen Hprev.
  - destruct data; [reflexivity | discriminate Hlen].
  - destruct (split_block data n Hlen) as (b & rest & -> & Hb & Hrest).
    assert (Hx : length (strxor b prev) = 16)
      by (rewrite strxor_length; lia).
    rewrite cbc_encrypt_blocks_app by assumption.
    rewrite cbc_decrypt_blocks_app by (auto using block_encrypt_length).
    rewrite block_decrypt_encrypt by assumption.
    rewrite strxor_cancel by lia.
    rewrite IH by (auto using block_encrypt_length). reflexivity.
Qed.

Lemma length_multiple (data : bytes) :
  length data mod 16 = 0 -> exists n, length data = 16 * n.
Proof.
  intros Hmod. exists (length data / 16).
  pose proof (Nat.div_mod_eq (length data) 16). lia.
Qed.

Lemma cbc_decrypt_encrypt (c : CbcCipher) (data : bytes) :
  valid_key_size (length (cbc_key c)) = true ->
  length (cbc_iv c) = 16 ->
  length data mod 16 = 0 ->
  (ct <- cbc_encrypt c data ;; cbc_decrypt c ct) = Ok data.
Proof.
  intros Hk Hiv Hmod.
  destruct (length_multiple data Hmod) as [n Hn].
  unfold cbc_encrypt, cbc_decrypt. rewrite Hmod. cbn [Nat.eqb negb bind].
  rewrite (cbc_encrypt_blocks_length _ n), Hmod by assumption.
  cbn [Nat.eqb negb].
  now rewrite (cbc_decrypt_encrypt_blocks _ n).
Qed.

Lemma AES_new_CBC_16 (k : bytes) :
  length k = 16 -> AES_new_CBC k k = Ok {| cbc_key := k; cbc_iv := k |}.
Proof. intros Hk. unfold AES_new_CBC. rewrite Hk. reflexivity. Qed.

Lemma bytes_decode_encode (p : string) :
  is_str p -> bytes_decode (str_encode p) = Ok p.
Proof.
  unfold is_str, bytes_decode, str_encode. intros ->.
  now rewrite string_of_list_ascii_of_string.
Qed.

(** C1, as amended: with a key whose encoding is 16 bytes long (the only
    size that is also a valid initialization vector), decrypting the
    encryption of a well-formed text [p] gives [p] back. *)
Theorem payload_roundtrip (p k : string) :
  is_str p ->
  length (str_encode k) = 16 ->
  (c <- encrypt_payload p k ;; decrypt_payload (Bytes c) k) = Ok p.
Proof.
  intros Hp Hk.
  pose proof (cbc_decrypt_encrypt {| cbc_key := str_encode k; cbc_iv := str_encode k |}
                (pad (str_encode p) 16)) as Hcbc.
  cbn [cbc_key cbc_iv] in Hcbc.
  specialize (Hcbc ltac:(rewrite Hk; reflexivity) Hk (pad_length_mod _)).
  unfold encrypt_payload, decrypt_payload, PADDING_OFFSET.
  rewrite (AES_new_CBC_16 _ Hk). cbn [bind].
  destruct (cbc_encrypt _ (pad (str_encode p) 16)) as [ct|e] eqn:Hct;
    cbn [bind] in *; [|discriminate Hcbc].
  rewrite unhexlify_hexlify. cbn [bind]. rewrite Hcbc. cbn [bind].
  rewrite unpad_pad. cbn [bind].
  now apply bytes_decode_encode.
Qed.

End CBCFacts.

(** ** dict *)

Lemma dict_get_set {V : Type} (d : dict V) (k : string) (v : V) (k' : string) :
  dict_get (dict_set d k v) k'
  = if String.eqb k k' then Some v else dict_get d k'.
Proof.
  induction d as [|[k0 v0] r IH]; simpl; [reflexivity|].
  destruct (String.eqb_spec k0 k) as [->|Hne]; simpl.
  - destruct (String.eqb_spec k k'); reflexivity.
  - destruct (String.eqb_spec k0 k') as [->|Hne'].
    + destruct (String.eqb_spec k k'); [congruence | reflexivity].
    + apply IH.
Qed.

Lemma dict_get_None {V : Type} (d : dict V) (k : string) :
  dict_get d k = None <-> ~ In k (map fst d).
Proof.
  induction d as [|[k0 v0] r IH]; simpl; [tauto|].
  destruct (String.eqb_spec k0 k) as [->|Hne].
  - split; [discriminate | intros Hn; exfalso; apply Hn; now left].
  - rewrite IH. split; [intros Hn [Heq|Hin]; congruence | tauto].
Qed.

Lemma dict_set_keys {V : Type} (d : dict V) (k : string) (v : V) :
  map fst (dict_set d k v)
  = if dict_mem d k then map fst d else map fst d ++ [k].
Proof.
  unfold dict_mem.
  induction d as [|[k0 v0] r IH]; simpl; [reflexivity|].
  destruct (String.eqb_spec k0 k) as [->|Hne]; simpl; [reflexivity|].
  rewrite IH. now destruct (dict_get r k).
Qed.

Lemma dict_set_NoDup {V : Type} (d : dict V) (k : string) (v : V) :
  NoDup (map fst d) -> NoDup (map fst (dict_set d k v)).
Proof.
  intros Hnd. rewrite dict_set_keys. unfold dict_mem.
  destruct (dict_get d k) eqn:Hget; [assumption|].
  apply dict_get_None in Hget.
  apply NoDup_app; [assumption | repeat constructor; intros [] | ].
  intros x Hx [<-|[]]. contradiction.
Qed.

Lemma dict_set_Forall {V : Type} (P : string * V -> Prop) (d : dict V)
  (k : string) (v : V) :
  (forall k', P (k', v)) -> Forall P d -> Forall P (dict_set d k v).
Proof.
  intros Hv Hd. induction Hd as [|[k0 v0] r Hx Hr IH]; simpl.
  - repeat constructor. apply Hv.
  - destruct (String.eqb k0 k); constructor; auto.
Qed.

Lemma dict_del_keys_incl {V : Type} (d : dict V) (k x : string) :
  In x (map fst (dict_del d k)) -> In x (map fst d).
Proof.
  induction d as [|[k0 v0] r IH]; simpl; [tauto|].
  destruct (String.eqb k0 k); simpl; tauto.
Qed.

Lemma dict_del_NoDup {V : Type} (d : dict V) (k : string) :
  NoDup (map fst d) -> NoDup (map fst (dict_del d k)).
Proof.
  induction d as [|[k0 v0] r IH]; simpl; intros Hnd; [constructor|].
  inversion Hnd as [|? ? Hnin Hnd']; subst.
  destruct (String.eqb k0 k); [assumption|].
  simpl. constructor; [|auto].
  intros Hin. apply Hnin. eapply dict_del_keys_incl, Hin.
Qed.

Lemma dict_del_Forall {V : Type} (P : string * V -> Prop) (d : dict V)
  (k : string) :
  Forall P d -> Forall P (dict_del d k).
Proof.
  intros Hd. induction Hd as [|[k0 v0] r Hx Hr IH]; simpl; [constructor|].
  destruct (String.eqb k0 k); [assumption | constructor; assumption].
Qed.

Lemma dict_get_del {V : Type} (d : dict V) (k k' : string) :
  NoDup (map fst d) ->
  dict_get (dict_del d k) k'
  = if String.eqb k k' then None else dict_get d k'.
Proof.
  induction d as [|[k0 v0] r IH]; simpl; intros Hnd.
  - now destruct (String.eqb k k').
  - inversion Hnd as [|? ? Hnin Hnd']; subst.
    destruct (String.eqb_spec k0 k) as [->|Hne].
    + destruct (String.eqb_spec k k') as [Heq|Hne'];
        [subst k'; now apply dict_get_None | reflexivity].
    + simpl. rewrite IH by assumption.
      destruct (String.eqb_spec k0 k') as [->|Hne'];
        [destruct (String.eqb_spec k k'); congruence | reflexivity].
Qed.

Lemma dict_of_pairs_mem_aux {V : Type} (l : list (string * V)) :
  forall (d : dict V) (k : string),
  dict_get (fold_left (fun d kv => dict_set d (fst kv) (snd kv)) l d) k = None
  <-> dict_get d k = None /\ ~ In k (map fst l).
Proof.
  induction l as [|[k0 v0] l IH]; intros d k; simpl; [tauto|].
  rewrite IH, dict_get_set.
  destruct (String.eqb_spec k0 k) as [->|Hne].
  - split; [intros [Hd _]; discriminate | intros [_ Hn]; exfalso; apply Hn; now left].
  - split; [intros [Hd Hn]; split; [assumption | intros [?|?]; congruence]
           | intros [Hd Hn]; tauto].
Qed.

(** A key is missing from [dict(pairs)] exactly when no pair has it. *)
Lemma dict_of_pairs_None {V : Type} (l : list (string * V)) (k : string) :
  dict_get (dict_of_pairs l) k = None <-> ~ In k (map fst l).
Proof.
  unfold dict_of_pairs. rewrite dict_of_pairs_mem_aux. simpl. tauto.
Qed.

(** ** util.py: validate_gw_url and sanitize *)

Section UtilFacts.
Context `{Environment}.

(** C9, as amended: [validate_gw_url] parses its argument first and lets
    through whatever [urlparse] raises.  When the argument parses, it
    raises [InvalidUrl] if the query string is not empty, raises
    [InvalidUrl] if the scheme is neither [http] nor [https], and otherwise
    returns its argument. *)
Theorem validate_gw_url_cases (s : string) :
  (forall e, urlparse s = Raise e -> validate_gw_url s = Raise e) /\
  (forall u, urlparse s = Ok u ->
     (query u <> "" ->
      exists msg, validate_gw_url s = Raise (InvalidUrl msg)) /\
     (scheme u <> "http" -> scheme u <> "https" ->
      exists msg, validate_gw_url s = Raise (InvalidUrl msg)) /\
     (query u = "" -> scheme u = "http" \/ scheme u = "https" ->
      validate_gw_url s = Ok s)).
Proof.
  unfold validate_gw_url. split.
  - intros e ->. reflexivity.
  - intros u ->. cbn [bind existsb].
    destruct (String.eqb_spec (scheme u) "http") as [Hh|Hh],
             (String.eqb_spec (scheme u) "https") as [Hs|Hs],
             (String.eqb_spec (query u) "") as [Hq|Hq];
      cbn [orb negb]; repeat split; intros; try tauto; eauto.
Qed.

(** C5: what the code does on every input.  [str.translate] is called
    with two arguments, which Python 3 refuses, so [sanitize] raises
    [TypeError] and returns nothing. *)
Theorem sanitize_raises_TypeError (text : string) :
  sanitize text
  = Raise (TypeError "translate() takes exactly one argument (2 given)").
Proof. reflexivity. Qed.

End UtilFacts.

(** ** check_if_set *)

(** A wrapped method that does not raise evaluates to [None], whatever
    the method returned. *)
Lemma check_if_set_returns_None {Self A : Type}
  (getattr : Self -> string -> result value) (props : list string)
  (f_name : string) (f : Self -> result A * Self) (self self' : Self) (a : A) :
  all_set getattr self props = Ok true ->
  f self = (Ok a, self') ->
  check_if_set getattr props f_name f self = (Ok VNone, self').
Proof.
  intros Hall Hf. unfold check_if_set. now rewrite Hall, Hf.
Qed.

(** ** The Gateway class *)

Section GatewayFacts.
Context `{Environment} `{BlockCipher}.

Lemma all_set_urls (self : Gateway) :
  all_set getattr self ["response_url"; "error_url"]
  = Ok (truthy (get_response_url self) && truthy (get_error_url self)).
Proof.
  unfold all_set.
  change (getattr self "response_url") with (Ok (get_response_url self)).
  change (getattr self "error_url") with (Ok (get_error_url self)).
  cbn [bind].
  destruct (truthy (get_response_url self)), (truthy (get_error_url self));
    reflexivity.
Qed.

(** C2: what the code does once both URLs are set.  No URL is returned:
    [_get_redirect_url] hands [action.value] to [_build_payload], which
    takes [.value] of it again. *)
Theorem generate_purchase_request_raises (self : Gateway) :
  truthy (get_response_url self) = true ->
  truthy (get_error_url self) = true ->
  generate_purchase_request self
  = (Raise (AttributeError "'int' object has no attribute 'value'"), self).
Proof.
  intros Hr He. unfold generate_purchase_request, check_if_set.
  rewrite all_set_urls, Hr, He. reflexivity.
Qed.

(** C3, as amended: while [response_url] or [error_url] is unset the call
    raises the decorator's [AttributeError] and leaves the instance as it
    was.  The message is the same whichever property is unset: it lists
    both guarded properties and the method's name. *)
Theorem generate_purchase_request_unset (self : Gateway) :
  truthy (get_response_url self) = false \/
  truthy (get_error_url self) = false ->
  generate_purchase_request self
  = (Raise (AttributeError
       "response_url,error_url must be set before generate_purchase_request can be called"),
     self).
Proof.
  intros Hunset.
  unfold generate_purchase_request, check_if_set. rewrite all_set_urls.
  replace (truthy (get_response_url self) && truthy (get_error_url self))
    with false
    by (destruct Hunset as [-> | ->]; [reflexivity | now rewrite andb_false_r]).
  reflexivity.
Qed.

(** [__init__] returns exactly when every step before the record is built
    returns. *)
Lemma init_inv (keystore resource alias : string) (amount0 : value)
  (lang0 currency0 : string) (tid : value) (gw : Gateway) :
  __init__ keystore resource alias amount0 lang0 currency0 tid = Ok gw ->
  tracking_id gw
  = match tid with
    | VNone => Some (VStr (str_of_int time_now))
    | _ => None
    end.
Proof.
  unfold __init__. intros Hinit.
  repeat (apply bind_ok_inv in Hinit; destruct Hinit as (? & _ & Hinit)).
  injection Hinit as <-. reflexivity.
Qed.

(** The default: without a [tracking_id] argument the instance carries the
    current time in decimal, and that is the [trackid] parameter. *)
Lemma init_default_tracking_id (keystore resource alias : string)
  (amount0 : value) (lang0 currency0 : string) (gw : Gateway) :
  __init__ keystore resource alias amount0 lang0 currency0 VNone = Ok gw ->
  tracking_id gw = Some (VStr (str_of_int time_now)) /\
  exists params,
    _build_param_dict gw (VInt 1) = Ok params /\
    dict_get params "trackid" = Some (VStr (str_of_int time_now)).
Proof.
  intros Hinit. apply init_inv in Hinit. split; [assumption|].
  unfold _build_param_dict, get_tracking_id. rewrite Hinit.
  eexists; split; reflexivity.
Qed.

(** Every UDF setter goes through [sanitize]: it raises and assigns
    nothing. *)
Lemma set_udf_raises (s : string) (self : Gateway) :
  set_udf1 s self
  = (Raise (TypeError "translate() takes exactly one argument (2 given)"),
     self) /\
  set_udf5 s self
  = (Raise (TypeError "translate() takes exactly one argument (2 given)"),
     self).
Proof. split; reflexivity. Qed.

(** C4: what the code does with a supplied tracking id.  The constructor
    assigns [self.tracking_id] only when the argument is [None]; a supplied
    id is dropped, and building the purchase parameters then fails. *)
Theorem init_drops_supplied_tracking_id (keystore resource alias : string)
  (amount0 : value) (lang0 currency0 : string) (tid : value) (gw : Gateway) :
  tid <> VNone ->
  __init__ keystore resource alias amount0 lang0 currency0 tid = Ok gw ->
  tracking_id gw = None /\
  _build_param_dict gw (VInt 1)
  = Raise (AttributeError "'Gateway' object has no attribute 'tracking_id'").
Proof.
  intros Htid Hinit. apply init_inv in Hinit.
  assert (Hnone : tracking_id gw = None)
    by (destruct tid; [contradiction | assumption ..]).
  split; [assumption|].
  unfold _build_param_dict, get_tracking_id. now rewrite Hnone.
Qed.

Lemma dict_of_pairs_mem {V : Type} (l : list (string * V)) (k : string) :
  dict_get (dict_of_pairs l) k = None
  <-> existsb (String.eqb k) (map fst l) = false.
Proof.
  rewrite dict_of_pairs_None. split.
  - intros Hnin. destruct (existsb (String.eqb k) (map fst l)) eqn:Hex;
      [|reflexivity].
    apply existsb_exists in Hex. destruct Hex as (y & Hy & Heq).
    apply String.eqb_eq in Heq. subst y. contradiction.
  - intros Hex Hin.
    assert (Htrue : existsb (String.eqb k) (map fst l) = true)
      by (apply existsb_exists; exists k; split;
          [assumption | apply String.eqb_refl]).
    congruence.
Qed.

(** C8, as amended: when the terminal document lacks one of the four
    required tags, the constructor raises the built-in [KeyError] of the
    first missing tag, in the order [password], [resourceKey], [id],
    [webaddress], and returns no instance. *)
Theorem init_missing_key (keystore resource alias : string) (amount0 : value)
  (lang0 currency0 : string) (tid : value)
  (number : Z) (document : bytes) (children : list (string * value)) :
  Currency_number currency0 = Ok number ->
  read_resource_file resource keystore alias = Ok document ->
  ET_fromstring document = Ok children ->
  (exists k, In k required_keys /\ ~ In k (map fst children)) ->
  exists k,
    first_missing children = Some k /\
    In k required_keys /\ ~ In k (map fst children) /\
    __init__ keystore resource alias amount0 lang0 currency0 tid
    = Raise (KeyError k).
Proof.
  intros Hcur Hread Hparse (k & Hreq & Hmiss).
  unfold __init__. rewrite Hcur. cbn [bind]. rewrite Hread. cbn [bind].
  rewrite Hparse. cbn [bind]. unfold dict_getitem, first_missing.
  cbn [required_keys find].
  destruct (dict_get (dict_of_pairs children) "password") eqn:H1.
  2:{ exists "password". pose proof H1 as H1'.
      apply dict_of_pairs_mem in H1'. rewrite H1'.
      apply dict_of_pairs_None in H1. simpl. auto. }
  destruct (existsb (String.eqb "password") (map fst children)) eqn:E1;
    [|apply dict_of_pairs_mem in E1; congruence].
  destruct (dict_get (dict_of_pairs children) "resourceKey") eqn:H2.
  2:{ exists "resourceKey". pose proof H2 as H2'.
      apply dict_of_pairs_mem in H2'. rewrite H2'.
      apply dict_of_pairs_None in H2. simpl. auto. }
  destruct (existsb (String.eqb "resourceKey") (map fst children)) eqn:E2;
    [|apply dict_of_pairs_mem in E2; congruence].
  destruct (dict_get (dict_of_pairs children) "id") eqn:H3.
  2:{ exists "id". pose proof H3 as H3'.
      apply dict_of_pairs_mem in H3'. rewrite H3'.
      apply dict_of_pairs_None in H3. simpl. auto 6. }
  destruct (existsb (String.eqb "id") (map fst children)) eqn:E3;
    [|apply dict_of_pairs_mem in E3; congruence].
  destruct (dict_get (dict_of_pairs children) "webaddress") eqn:H4.
  2:{ exists "webaddress". pose proof H4 as H4'.
      apply dict_of_pairs_mem in H4'. rewrite H4'.
      apply dict_of_pairs_None in H4. simpl. auto 7. }
  exfalso. apply dict_of_pairs_None in Hmiss.
  simpl in Hreq. destruct Hreq as [<-|[<-|[<-|[<-|[]]]]]; congruence.
Qed.

End GatewayFacts.

(** ** Callback parsing *)

Lemma occurrences_nil (name : string) (fields : list (string * string)) :
  (forall v, ~ In (name, v) fields) -> occurrences name fields = [].
Proof.
  unfold occurrences. induction fields as [|[n v] r IH]; intros Hno;
    [reflexivity|].
  simpl. destruct (String.eqb_spec n name) as [->|Hne].
  - exfalso. apply (Hno v). now left.
  - apply IH. intros v' Hin. apply (Hno v'). now right.
Qed.

Definition nonempty_values (kv : string * list string) : Prop := snd kv <> [].

Section CallbackFacts.
Context `{Environment} `{BlockCipher}.

Definition group_step (d : dict (list string)) (nv : string * string)
  : dict (list string) :=
  match dict_get d (fst nv) with
  | Some l => dict_set d (fst nv) (l ++ [snd nv])
  | None => dict_set d (fst nv) [snd nv]
  end.

Lemma group_step_get (d : dict (list string)) (n v k : string) :
  dict_get (group_step d (n, v)) k
  = if String.eqb n k
    then Some (match dict_get d k with Some l => l ++ [v] | None => [v] end)
    else dict_get d k.
Proof.
  unfold group_step. cbn [fst snd].
  destruct (String.eqb_spec n k) as [->|Hne].
  - destruct (dict_get d k); rewrite dict_get_set, String.eqb_refl; reflexivity.
  - destruct (dict_get d n); rewrite dict_get_set;
      (destruct (String.eqb_spec n k); [contradiction | reflexivity]).
Qed.

Lemma group_fold_get (fields : list (string * string)) :
  forall (d : dict (list string)) (k : string),
  dict_get (fold_left group_step fields d) k
  = match dict_get d k, occurrences k fields with
    | Some l, occ => Some (l ++ occ)
    | None, [] => None
    | None, occ => Some occ
    end.
Proof.
  unfold occurrences.
  induction fields as [|[n v] r IH]; intros d k; cbn [fold_left].
  - simpl. destruct (dict_get d k); [now rewrite app_nil_r | reflexivity].
  - rewrite IH, group_step_get. cbn [filter fst].
    destruct (String.eqb_spec n k) as [->|Hne]; cbn [map snd].
    + destruct (dict_get d k); [now rewrite <- app_assoc | reflexivity].
    + reflexivity.
Qed.

(** [parse_qs] binds each name to its values in order of appearance. *)
Lemma parse_qs_get (qs k : string) :
  dict_get (parse_qs qs) k
  = match occurrences k (parse_qsl qs) with
    | [] => None
    | occ => Some occ
    end.
Proof.
  unfold parse_qs. change (fun d nv => _) with group_step.
  now rewrite group_fold_get.
Qed.

Lemma group_fold_invariant (fields : list (string * string)) :
  forall d : dict (list string),
  NoDup (map fst d) -> Forall nonempty_values d ->
  NoDup (map fst (fold_left group_step fields d)) /\
  Forall nonempty_values (fold_left group_step fields d).
Proof.
  induction fields as [|[n v] r IH]; intros d Hnd Hne; cbn [fold_left];
    [auto|].
  apply IH; unfold group_step; cbn [fst snd]; destruct (dict_get d n).
  - now apply dict_set_NoDup.
  - now apply dict_set_NoDup.
  - apply dict_set_Forall; [|assumption].
    intros k'. unfold nonempty_values. cbn [snd]. now destruct l.
  - apply dict_set_Forall; [|assumption].
    intros k'. unfold nonempty_values. cbn [snd]. discriminate.
Qed.

Lemma parse_qs_invariant (qs : string) :
  NoDup (map fst (parse_qs qs)) /\ Forall nonempty_values (parse_qs qs).
Proof.
  unfold parse_qs. change (fun d nv => _) with group_step.
  apply group_fold_invariant; constructor.
Qed.

Lemma first_values_spec (items : dict (list string)) :
  NoDup (map fst items) -> Forall nonempty_values items ->
  forall d0, exists d,
    first_values items d0 = Ok d /\
    forall k, dict_get d k
              = match dict_get items k with
                | Some l => hd_error l
                | None => dict_get d0 k
                end.
Proof.
  induction items as [|[k0 v0] r IH]; intros Hnd Hne d0.
  - exists d0. split; reflexivity.
  - inversion Hnd as [|? ? Hnin Hnd']; subst.
    inversion Hne as [|? ? Hv0 Hne']; subst.
    destruct v0 as [|x v0]; [now contradiction Hv0|].
    destruct (IH Hnd' Hne' (dict_set d0 k0 x)) as (d & Hd & Hget).
    exists d. split; [exact Hd|].
    intros k. rewrite Hget, dict_get_set. cbn [dict_get].
    destruct (String.eqb_spec k0 k) as [->|Hneq]; [|reflexivity].
    apply dict_get_None in Hnin. now rewrite Hnin.
Qed.

Lemma add_missing_spec (items : dict (list string)) :
  Forall nonempty_values items ->
  forall d0, exists d,
    add_missing items d0 = Ok d /\
    forall k, dict_get d k
              = match dict_get d0 k with
                | Some v => Some v
                | None => match dict_get items k with
                          | Some l => hd_error l
                          | None => None
                          end
                end.
Proof.
  induction items as [|[k0 v0] r IH]; intros Hne d0.
  - exists d0. split; [reflexivity|]. intros k. now destruct (dict_get d0 k).
  - inversion Hne as [|? ? Hv0 Hne']; subst.
    cbn [add_missing]. unfold dict_mem.
    destruct (dict_get d0 k0) as [v|] eqn:Hmem.
    + destruct (IH Hne' d0) as (d & Hd & Hget).
      exists d. split; [exact Hd|].
      intros k. rewrite Hget. cbn [dict_get].
      destruct (String.eqb_spec k0 k) as [->|Hneq]; [now rewrite Hmem | reflexivity].
    + destruct v0 as [|x v0]; [now contradiction Hv0|].
      destruct (IH Hne' (dict_set d0 k0 x)) as (d & Hd & Hget).
      exists d. split; [exact Hd|].
      intros k. rewrite Hget, dict_get_set. cbn [dict_get].
      destruct (String.eqb_spec k0 k) as [->|Hneq];
        [now rewrite Hmem | reflexivity].
Qed.

(** What [get_result] returns: the first [trandata] value is decrypted;
    every other name is bound to the first of its cleartext values,
    followed by its values in the decrypted text. *)
Lemma get_result_spec (self : Gateway) (raw hex : string) (rest : list string)
  (k0 text : string) :
  occurrences "trandata" (parse_qsl raw) = hex :: rest ->
  encode_receiver (key self) = Ok k0 ->
  decrypt_payload (Str hex) k0 = Ok text ->
  exists d,
    get_result self raw = Ok d /\
    forall name,
      dict_get d name
      = hd_error ((if String.eqb name "trandata" then []
                   else occurrences name (parse_qsl raw))
                  ++ occurrences name (parse_qsl text)).
Proof.
  intros Htran Hkey Hdec.
  destruct (parse_qs_invariant raw) as [Hnd Hne].
  destruct (parse_qs_invariant text) as [_ Hne'].
  destruct (first_values_spec (dict_del (parse_qs raw) "trandata")
              (dict_del_NoDup _ _ Hnd) (dict_del_Forall _ _ _ Hne) [])
    as (d1 & Hd1 & Hget1).
  destruct (add_missing_spec (parse_qs text) Hne' d1) as (d & Hd & Hget).
  exists d. split.
  - unfold get_result, _parse_response, dict_pop.
    rewrite parse_qs_get, Htran. cbn [item0 bind].
    rewrite Hkey. cbn [bind]. rewrite Hdec. cbn [bind fst snd].
    rewrite Hd1. cbn [bind]. exact Hd.
  - intros name. rewrite Hget, Hget1, dict_get_del by assumption.
    rewrite !parse_qs_get. cbn [dict_get].
    rewrite (String.eqb_sym name).
    destruct (String.eqb "trandata" name).
    + cbn [app]. now destruct (occurrences name (parse_qsl text)).
    + destruct (occurrences name (parse_qsl raw)) as [|v vs]; cbn [app hd_error].
      * now destruct (occurrences name (parse_qsl text)).
      * reflexivity.
Qed.

(** C7: a callback string without a [trandata] field makes [get_result]
    raise [InvalidGatewayResponse]. *)
Theorem get_result_without_trandata (self : Gateway) (raw : string) :
  (forall v, ~ In ("trandata", v) (parse_qsl raw)) ->
  get_result self raw
  = Raise (InvalidGatewayResponse
             "Invalid response from the gateway, missing encrypted data").
Proof.
  intros Hno. unfold get_result, _parse_response, dict_pop.
  rewrite parse_qs_get, (occurrences_nil _ _ Hno). reflexivity.
Qed.

(** C6, as amended: on every name other than [trandata] that the callback
    string and the decrypted payload both bind, the result carries the
    cleartext value. *)
Theorem get_result_cleartext_precedence (self : Gateway)
  (raw hex : string) (rest : list string) (k0 text : string)
  (name v1 v2 : string) (vs1 vs2 : list string) :
  occurrences "trandata" (parse_qsl raw) = hex :: rest ->
  encode_receiver (key self) = Ok k0 ->
  decrypt_payload (Str hex) k0 = Ok text ->
  name <> "trandata" ->
  dict_get (parse_qs raw) name = Some (v1 :: vs1) ->
  dict_get (parse_qs text) name = Some (v2 :: vs2) ->
  exists d, get_result self raw = Ok d /\ dict_get d name = Some v1.
Proof.
  intros Htran Hkey Hdec Hname Hclear _.
  destruct (get_result_spec self raw hex rest k0 text Htran Hkey Hdec)
    as (d & Hd & Hget).
  exists d. split; [exact Hd|].
  rewrite Hget. apply String.eqb_neq in Hname. rewrite Hname.
  rewrite parse_qs_get in Hclear.
  destruct (occurrences name (parse_qsl raw)) as [|x xs]; [discriminate|].
  injection Hclear as -> _. reflexivity.
Qed.

(** C10, as amended: a name other than [trandata] is bound to the first of
    its cleartext values when it has any, and otherwise to the first of
    its values in the decrypted payload; later values are dropped.  Of the
    [trandata] values the first is the one decrypted, and the result binds
    [trandata] only to what the decrypted payload gives it. *)
Theorem get_result_first_value (self : Gateway)
  (raw hex : string) (rest : list string) (k0 text : string) :
  occurrences "trandata" (parse_qsl raw) = hex :: rest ->
  encode_receiver (key self) = Ok k0 ->
  decrypt_payload (Str hex) k0 = Ok text ->
  exists d,
    get_result self raw = Ok d /\
    (forall name, name <> "trandata" ->
       dict_get d name
       = hd_error (occurrences name (parse_qsl raw)
                   ++ occurrences name (parse_qsl text))) /\
    dict_get d "trandata" = hd_error (occurrences "trandata" (parse_qsl text)).
Proof.
  intros Htran Hkey Hdec.
  destruct (get_result_spec self raw hex rest k0 text Htran Hkey Hdec)
    as (d & Hd & Hget).
  exists d. split; [exact Hd|]. split.
  - intros name Hname. rewrite Hget.
    apply String.eqb_neq in Hname. now rewrite Hname.
  - now rewrite Hget.
Qed.

End CallbackFacts.

(** * The statements on the example world *)

(** The constructor and the URL setters produce the example instances. *)
Example init_gateway :
  @__init__ Example.env "keystore.bin" "resource.cgn" "terminal"
    (VFloat 10.5%float) "en" "KWD" VNone
  = Ok Example.gateway.
Proof. vm_compute. reflexivity. Qed.

Example set_urls_gateway :
  (let (_, g) :=
     @set_response_url Example.env "https://example.com/response"
       Example.gateway in
   @set_error_url Example.env "https://example.com/error" g)
  = (Ok tt, Example.gateway_with_urls).
Proof. vm_compute. reflexivity. Qed.

(** The ciphertexts of [Example] are what [encrypt_payload] produces. *)
Example encrypt_payload_examples :
  @encrypt_payload aes "foo=2&trandata=2" Example.key16
  = Ok (str_encode Example.hex_foo2_trandata2) /\
  @encrypt_payload aes "result=CAPTURED" Example.key16
  = Ok (str_encode Example.hex_result_captured) /\
  @encrypt_payload aes "foo=2&foo=3" Example.key16
  = Ok (str_encode Example.hex_foo2_foo3).
Proof. vm_compute. auto. Qed.

(** C1 at a 16-byte key. *)
Lemma payload_roundtrip_witness :
  is_str "action=1&id=T001&amt=10.5" /\
  length (str_encode Example.key16) = 16 /\
  (c <- @encrypt_payload aes "action=1&id=T001&amt=10.5" Example.key16 ;;
   @decrypt_payload aes (Bytes c) Example.key16)
  = Ok "action=1&id=T001&amt=10.5".
Proof.
  refine (conj _ (conj _ (@payload_roundtrip aes _ _ _ _))); reflexivity.
Defined.

(** C1 fails at a 24-byte key: the key is a valid AES key but not a valid
    initialization vector, and the cipher cannot be built. *)
Lemma payload_roundtrip_fails_key24 :
  is_str "amt=10.5" /\
  valid_key_size (length (str_encode Example.key24)) = true /\
  (c <- @encrypt_payload aes "amt=10.5" Example.key24 ;;
   @decrypt_payload aes (Bytes c) Example.key24)
  = Raise (ValueError "Incorrect IV length (it must be 16 bytes long)").
Proof. repeat split. Qed.

(** C2 on the instance with both URLs set. *)
Lemma generate_purchase_request_raises_witness :
  truthy (get_response_url Example.gateway_with_urls) = true /\
  truthy (get_error_url Example.gateway_with_urls) = true /\
  @generate_purchase_request Example.env aes Example.gateway_with_urls
  = (Raise (AttributeError "'int' object has no attribute 'value'"),
     Example.gateway_with_urls).
Proof.
  refine (conj _ (conj _
    (@generate_purchase_request_raises Example.env aes _ _ _)));
    reflexivity.
Defined.

(** C3 on the instance whose [response_url] is set and whose [error_url]
    is not. *)
Lemma generate_purchase_request_unset_witness :
  (truthy (get_response_url Example.gateway_with_response_url) = false \/
   truthy (get_error_url Example.gateway_with_response_url) = false) /\
  @generate_purchase_request Example.env aes Example.gateway_with_response_url
  = (Raise (AttributeError
       "response_url,error_url must be set before generate_purchase_request can be called"),
     Example.gateway_with_response_url).
Proof.
  refine (conj _
    (@generate_purchase_request_unset Example.env aes
       Example.gateway_with_response_url _));
    right; reflexivity.
Defined.

(** C3 fails as worded: on that instance only [error_url] is unset, yet
    the message of the [AttributeError] names [response_url], which is
    set, as well. *)
Lemma generate_purchase_request_names_set_field :
  truthy (get_response_url Example.gateway_with_response_url) = true /\
  truthy (get_error_url Example.gateway_with_response_url) = false /\
  @generate_purchase_request Example.env aes Example.gateway_with_response_url
  = (Raise (AttributeError
       "response_url,error_url must be set before generate_purchase_request can be called"),
     Example.gateway_with_response_url) /\
  contains "response_url"
    "response_url,error_url must be set before generate_purchase_request can be called"
  = true.
Proof. vm_compute. auto. Qed.

(** C4 with the tracking id [ORDER-1]. *)
Lemma init_drops_supplied_tracking_id_witness :
  VStr "ORDER-1" <> VNone /\
  (exists gw,
     @__init__ Example.env "keystore.bin" "resource.cgn" "terminal"
       (VFloat 10.5%float) "en" "KWD" (VStr "ORDER-1") = Ok gw /\
     tracking_id gw = None /\
     _build_param_dict gw (VInt 1)
     = Raise (AttributeError "'Gateway' object has no attribute 'tracking_id'")).
Proof.
  split; [discriminate|].
  eexists. split; [vm_compute; reflexivity|].
  refine (@init_drops_supplied_tracking_id Example.env
            "keystore.bin" "resource.cgn" "terminal" (VFloat 10.5%float)
            "en" "KWD" (VStr "ORDER-1") _ _ _);
    [discriminate | vm_compute; reflexivity].
Defined.

(** C8 on a document without [password]. *)
Lemma init_missing_key_witness :
  (exists k, In k required_keys /\
             ~ In k (map fst Example.terminal_without_password)) /\
  exists k,
    first_missing Example.terminal_without_password = Some k /\
    In k required_keys /\
    ~ In k (map fst Example.terminal_without_password) /\
    @__init__ (Example.world Example.terminal_without_password)
      "keystore.bin" "resource.cgn" "terminal" (VFloat 10.5%float)
      "en" "KWD" VNone
    = Raise (KeyError k).
Proof.
  assert (Hmiss : exists k, In k required_keys /\
                    ~ In k (map fst Example.terminal_without_password)).
  { exists "password". split; [now left|].
    simpl. intros [H|[H|[H|[]]]]; discriminate H. }
  split; [exact Hmiss|].
  exact (@init_missing_key (Example.world Example.terminal_without_password)
           "keystore.bin" "resource.cgn" "terminal" (VFloat 10.5%float)
           "en" "KWD" VNone 414%Z [] Example.terminal_without_password
           eq_refl eq_refl eq_refl Hmiss).
Defined.

(** C8 fails as worded: the exception of a document without [password]
    is the [KeyError] of the dictionary lookup; the package has no
    [MalformedConfig]. *)
Lemma init_without_password_raises_KeyError :
  first_missing Example.terminal_without_password = Some "password" /\
  @__init__ (Example.world Example.terminal_without_password)
    "keystore.bin" "resource.cgn" "terminal" (VFloat 10.5%float)
    "en" "KWD" VNone
  = Raise (KeyError "password").
Proof. vm_compute. auto. Qed.

(** C9 on a callback URL that parses. *)
Lemma validate_gw_url_cases_witness :
  @urlparse Example.env "https://example.com/response"
  = Ok {| scheme := "https"; netloc := "example.com"; path := "/response";
          params := ""; query := ""; fragment := "" |} /\
  @validate_gw_url Example.env "https://example.com/response"
  = Ok "https://example.com/response".
Proof.
  split; [reflexivity|].
  exact (proj2 (proj2
    (proj2 (@validate_gw_url_cases Example.env "https://example.com/response")
       _ eq_refl)) eq_refl (or_intror eq_refl)).
Defined.

(** C9 fails on a string [urlparse] refuses: an opening bracket without
    its closing one makes it raise [ValueError], and [validate_gw_url]
    neither returns the string nor raises [InvalidUrl]. *)
Lemma validate_gw_url_unparsable :
  @urlparse Example.env "http://[::1" = Raise (ValueError "Invalid IPv6 URL") /\
  @validate_gw_url Example.env "http://[::1"
  = Raise (ValueError "Invalid IPv6 URL").
Proof. vm_compute. auto. Qed.

(** C7 on a callback without [trandata]. *)
Lemma get_result_without_trandata_witness :
  (forall v,
     ~ In ("trandata", v) (@parse_qsl Example.env "result=CAPTURED&foo=1")) /\
  @get_result Example.env aes Example.gateway "result=CAPTURED&foo=1"
  = Raise (InvalidGatewayResponse
             "Invalid response from the gateway, missing encrypted data").
Proof.
  assert (Hno : forall v,
            ~ In ("trandata", v)
                (@parse_qsl Example.env "result=CAPTURED&foo=1")).
  { intros v [Hin|[Hin|[]]]; discriminate Hin. }
  exact (conj Hno
    (@get_result_without_trandata Example.env aes Example.gateway _ Hno)).
Defined.

(** C6 on a callback whose cleartext has [foo=1] and whose payload
    decrypts to [foo=2&foo=3]. *)
Lemma get_result_cleartext_precedence_witness :
  occurrences "trandata"
    (@parse_qsl Example.env ("foo=1&trandata=" ++ Example.hex_foo2_foo3))
  = [Example.hex_foo2_foo3] /\
  encode_receiver (key Example.gateway) = Ok Example.key16 /\
  @decrypt_payload aes (Str Example.hex_foo2_foo3) Example.key16
  = Ok "foo=2&foo=3" /\
  "foo" <> "trandata" /\
  dict_get (@parse_qs Example.env ("foo=1&trandata=" ++ Example.hex_foo2_foo3))
    "foo" = Some ["1"] /\
  dict_get (@parse_qs Example.env "foo=2&foo=3") "foo" = Some ["2"; "3"] /\
  exists d,
    @get_result Example.env aes Example.gateway
      ("foo=1&trandata=" ++ Example.hex_foo2_foo3) = Ok d /\
    dict_get d "foo" = Some "1".
Proof.
  assert (Ht : occurrences "trandata"
                 (@parse_qsl Example.env
                    ("foo=1&trandata=" ++ Example.hex_foo2_foo3))
               = [Example.hex_foo2_foo3]) by (vm_compute; reflexivity).
  assert (Hd : @decrypt_payload aes (Str Example.hex_foo2_foo3) Example.key16
               = Ok "foo=2&foo=3") by (vm_compute; reflexivity).
  assert (Hn : "foo" <> "trandata") by discriminate.
  assert (Hc : dict_get (@parse_qs Example.env
                           ("foo=1&trandata=" ++ Example.hex_foo2_foo3))
                 "foo" = Some ["1"]) by (vm_compute; reflexivity).
  assert (Hp : dict_get (@parse_qs Example.env "foo=2&foo=3") "foo"
               = Some ["2"; "3"]) by (vm_compute; reflexivity).
  exact (conj Ht (conj eq_refl (conj Hd (conj Hn (conj Hc (conj Hp
    (@get_result_cleartext_precedence Example.env aes Example.gateway
       _ _ _ _ _ _ _ _ _ _ Ht eq_refl Hd Hn Hc Hp))))))).
Defined.

(** C6 fails on the name [trandata]: the callback string binds it to the
    ciphertext, the decrypted payload binds it to [2], and the result
    carries [2]. *)
Lemma get_result_trandata_collision :
  dict_get (@parse_qs Example.env
              ("foo=1&trandata=" ++ Example.hex_foo2_trandata2)) "trandata"
  = Some [Example.hex_foo2_trandata2] /\
  @decrypt_payload aes (Str Example.hex_foo2_trandata2) Example.key16
  = Ok "foo=2&trandata=2" /\
  dict_get (@parse_qs Example.env "foo=2&trandata=2") "trandata"
  = Some ["2"] /\
  @get_result Example.env aes Example.gateway
    ("foo=1&trandata=" ++ Example.hex_foo2_trandata2)
  = Ok [("foo", "1"); ("trandata", "2")].
Proof. vm_compute. auto. Qed.

(** C10 on a callback with two cleartext values of [foo] and a payload
    that decrypts to [foo=2&foo=3]. *)
Lemma get_result_first_value_witness :
  occurrences "trandata"
    (@parse_qsl Example.env
       ("foo=1&foo=9&trandata=" ++ Example.hex_foo2_foo3))
  = [Example.hex_foo2_foo3] /\
  encode_receiver (key Example.gateway) = Ok Example.key16 /\
  @decrypt_payload aes (Str Example.hex_foo2_foo3) Example.key16
  = Ok "foo=2&foo=3" /\
  exists d,
    @get_result Example.env aes Example.gateway
      ("foo=1&foo=9&trandata=" ++ Example.hex_foo2_foo3) = Ok d /\
    (forall name, name <> "trandata" ->
       dict_get d name
       = hd_error
           (occurrences name
              (@parse_qsl Example.env
                 ("foo=1&foo=9&trandata=" ++ Example.hex_foo2_foo3))
            ++ occurrences name (@parse_qsl Example.env "foo=2&foo=3"))) /\
    dict_get d "trandata"
    = hd_error (occurrences "trandata" (@parse_qsl Example.env "foo=2&foo=3")).
Proof.
  assert (Ht : occurrences "trandata"
                 (@parse_qsl Example.env
                    ("foo=1&foo=9&trandata=" ++ Example.hex_foo2_foo3))
               = [Example.hex_foo2_foo3]) by (vm_compute; reflexivity).
  assert (Hd : @decrypt_payload aes (Str Example.hex_foo2_foo3) Example.key16
               = Ok "foo=2&foo=3") by (vm_compute; reflexivity).
  exact (conj Ht (conj eq_refl (conj Hd
    (@get_result_first_value Example.env aes Example.gateway
       _ _ _ _ _ Ht eq_refl Hd)))).
Defined.

(** C10 fails on the name [trandata]: it occurs twice in the callback
    string, the first value is decrypted, and the result does not bind
    [trandata] at all. *)
Lemma get_result_trandata_twice :
  occurrences "trandata"
    (@parse_qsl Example.env
       ("trandata=" ++ Example.hex_result_captured
        ++ "&trandata=" ++ Example.hex_foo2_foo3))
  = [Example.hex_result_captured; Example.hex_foo2_foo3] /\
  @decrypt_payload aes (Str Example.hex_result_captured) Example.key16
  = Ok "result=CAPTURED" /\
  @get_result Example.env aes Example.gateway
    ("trandata=" ++ Example.hex_result_captured
     ++ "&trandata=" ++ Example.hex_foo2_foo3)
  = Ok [("result", "CAPTURED")] /\
  dict_get [("result", "CAPTURED")] "trandata" = None.
Proof. vm_compute. auto. Qed.

(** * Further properties of the payload transform *)

Lemma hexdigit_facts (a : ascii) :
  is_lower_hex (hexdigit (byte_val a / 16)) = true /\
  is_lower_hex (hexdigit (byte_val a mod 16)) = true.
Proof.
  destruct a as [[] [] [] [] [] [] [] []]; vm_compute; auto.
Qed.

Lemma hexlify_lower_hex (b : bytes) : forallb is_lower_hex (hexlify b) = true.
Proof.
  unfold hexlify.
  induction b as [|a b IH]; cbn [flat_map app forallb]; [reflexivity|].
  destruct (hexdigit_facts a) as [-> ->]. exact IH.
Qed.

Lemma lower_hex_is_ascii (a : ascii) :
  is_lower_hex a = true -> (byte_val a <? 128)%N = true.
Proof.
  unfold is_lower_hex. intros Hhex. apply N.ltb_lt.
  apply orb_true_iff in Hhex.
  destruct Hhex as [Hd|Hd]; apply andb_true_iff in Hd;
    destruct Hd as [_ Hd]; apply N.leb_le in Hd; lia.
Qed.

Lemma hexlify_is_ascii (b : bytes) :
  forallb (fun a => (byte_val a <? 128)%N) (hexlify b) = true.
Proof.
  apply forallb_forall. intros a Hin.
  apply lower_hex_is_ascii.
  now apply (proj1 (forallb_forall _ _) (hexlify_lower_hex b)).
Qed.

Lemma ascii_utf8_valid (l : bytes) :
  forallb (fun a => (byte_val a <? 128)%N) l = true -> utf8_valid l = true.
Proof.
  induction l as [|a l IH]; cbn [forallb utf8_valid]; [reflexivity|].
  intros Hall. apply andb_true_iff in Hall. destruct Hall as [-> Hall].
  now apply IH.
Qed.

(** Hexadecimal text decodes to itself, read as [bytes] or as [str]. *)
Lemma decode_hexlify (b : bytes) :
  bytes_decode (hexlify b) = Ok (string_of_list_ascii (hexlify b)) /\
  unhexlify (Str (string_of_list_ascii (hexlify b))) = Ok b.
Proof.
  split.
  - unfold bytes_decode.
    now rewrite (ascii_utf8_valid _ (hexlify_is_ascii b)).
  - unfold unhexlify, str_encode.
    rewrite list_ascii_of_string_of_list_ascii, hexlify_is_ascii.
    cbn [negb]. apply (unhexlify_hexlify b).
Qed.

Lemma pad_length (data : bytes) :
  length (pad data 16) = 16 * (length data / 16 + 1).
Proof.
  unfold pad. rewrite length_app, repeat_length.
  pose proof (Nat.mod_upper_bound (length data) 16 ltac:(lia)).
  pose proof (Nat.div_mod_eq (length data) 16). lia.
Qed.

Lemma AES_new_CBC_inv (k : bytes) (c : CbcCipher) :
  AES_new_CBC k k = Ok c ->
  length k = 16 /\ c = {| cbc_key := k; cbc_iv := k |}.
Proof.
  unfold AES_new_CBC.
  destruct (valid_key_size (length k)); cbn [negb]; [|discriminate].
  destruct (Nat.eqb_spec (length k) 16) as [Hk|Hk]; cbn [negb];
    [|discriminate].
  intros Hc. injection Hc as <-. auto.
Qed.

Lemma AES_new_CBC_errors (k : bytes) (e : exn) :
  AES_new_CBC k k = Raise e -> exists msg, e = ValueError msg.
Proof.
  unfold AES_new_CBC.
  destruct (valid_key_size (length k)); cbn [negb];
    [|intros He; injection He as <-; eauto].
  destruct (length k =? 16); cbn [negb]; [discriminate|].
  intros He. injection He as <-. eauto.
Qed.

Lemma unhex_pairs_errors (l : bytes) (e : exn) :
  unhex_pairs l = Raise e -> exists msg, e = binascii_Error msg.
Proof.
  enough (Hboth : (forall e, unhex_pairs l = Raise e ->
                              exists msg, e = binascii_Error msg) /\
                  (forall a e, unhex_pairs (a :: l) = Raise e ->
                                exists msg, e = binascii_Error msg))
    by (apply Hboth).
  clear e. induction l as [|b l [IH1 IH2]]; split.
  - discriminate.
  - discriminate.
  - apply IH2.
  - intros a e. cbn [unhex_pairs].
    destruct (unhex_digit a), (unhex_digit b);
      try (intros He; injection He as <-; eauto).
    destruct (unhex_pairs l) as [rest|e'] eqn:Hrest; cbn [bind];
      [discriminate|].
    intros He. injection He as <-. now apply IH1.
Qed.

Section PayloadFacts.
Context `{BlockCipher}.

Lemma encrypt_payload_16 (p k : string) :
  length (str_encode k) = 16 ->
  encrypt_payload p k
  = Ok (hexlify (cbc_encrypt_blocks (str_encode k) (str_encode k)
                   (pad (str_encode p) 16))).
Proof.
  intros Hk. unfold encrypt_payload, cbc_encrypt, PADDING_OFFSET.
  rewrite (AES_new_CBC_16 _ Hk). cbn [bind cbc_key cbc_iv].
  now rewrite pad_length_mod.
Qed.


(** X2: what [encrypt_payload] returns is lower-case hexadecimal text of
    [32 * (n / 16 + 1)] characters, for a plaintext of [n] bytes: one
    padded 16-byte block more than the plaintext fills. *)
Theorem encrypt_payload_shape (p k : string) (c : bytes) :
  encrypt_payload p k = Ok c ->
  forallb is_lower_hex c = true /\
  length c = 32 * (length (str_encode p) / 16 + 1).
Proof.
  intros Hc.
  assert (Hk : length (str_encode k) = 16).
  { unfold encrypt_payload in Hc. apply bind_ok_inv in Hc.
    destruct Hc as (crypt & Hnew & _). now apply AES_new_CBC_inv in Hnew. }
  rewrite (encrypt_payload_16 _ _ Hk) in Hc. injection Hc as <-.
  split; [apply hexlify_lower_hex|].
  rewrite hexlify_length.
  rewrite (cbc_encrypt_blocks_length _ (length (str_encode p) / 16 + 1));
    rewrite ?pad_length, ?Hk; auto; lia.
Qed.

(** Whatever unhexlifies to the CBC ciphertext of the padded plaintext
    decrypts to the plaintext. *)
Lemma decrypt_ciphertext (p k : string) (x : text_or_bytes) :
  is_str p ->
  length (str_encode k) = 16 ->
  unhexlify x
  = Ok (cbc_encrypt_blocks (str_encode k) (str_encode k)
          (pad (str_encode p) 16)) ->
  decrypt_payload x k = Ok p.
Proof.
  intros Hp Hk Hx.
  assert (Hvalid : valid_key_size (length (str_encode k)) = true)
    by (rewrite Hk; reflexivity).
  unfold decrypt_payload, cbc_decrypt, PADDING_OFFSET.
  rewrite Hx. cbn [bind]. rewrite (AES_new_CBC_16 _ Hk). cbn [bind cbc_key cbc_iv].
  rewrite (cbc_encrypt_blocks_length _ (length (str_encode p) / 16 + 1))
    by (rewrite ?pad_length; auto).
  rewrite pad_length_mod. cbn [Nat.eqb negb bind].
  rewrite (cbc_decrypt_encrypt_blocks _ (length (str_encode p) / 16 + 1))
    by (rewrite ?pad_length; auto).
  rewrite unpad_pad. cbn [bind]. now apply bytes_decode_encode.
Qed.

(** The text form of the payload decrypts to the plaintext. *)
Lemma decrypt_encrypted_text (p k : string) (c : bytes) :
  is_str p ->
  encrypt_payload p k = Ok c ->
  bytes_decode c = Ok (string_of_list_ascii c) /\
  decrypt_payload (Str (string_of_list_ascii c)) k = Ok p.
Proof.
  intros Hp Hc.
  assert (Hk : length (str_encode k) = 16).
  { unfold encrypt_payload in Hc. apply bind_ok_inv in Hc.
    destruct Hc as (crypt & Hnew & _). now apply AES_new_CBC_inv in Hnew. }
  rewrite (encrypt_payload_16 _ _ Hk) in Hc. injection Hc as <-.
  destruct (decode_hexlify
              (cbc_encrypt_blocks (str_encode k) (str_encode k)
                 (pad (str_encode p) 16))) as [Hdec Hunhex].
  split; [exact Hdec|].
  now apply decrypt_ciphertext.
Qed.

Lemma decrypt_payload_raises (x : text_or_bytes) (k : string) (e : exn) :
  decrypt_payload x k = Raise e ->
  (exists msg, e = ValueError msg) \/
  (exists msg, e = binascii_Error msg) \/
  e = UnicodeDecodeError.
Proof.
  unfold decrypt_payload. intros He.
  destruct (unhexlify x) as [raw|e0] eqn:Hraw; cbn [bind] in He.
  - destruct (AES_new_CBC (str_encode k) (str_encode k)) as [crypt|e1] eqn:Hnew;
      cbn [bind] in He.
    + unfold cbc_decrypt in He.
      destruct (negb (length raw mod 16 =? 0)); cbn [bind] in He;
        [injection He as <-; eauto|].
      unfold unpad in He.
      repeat match type of He with
             | context [if ?b then _ else _] =>
               destruct b; cbn [bind] in He;
               [injection He as <-; eauto|]
             end.
      unfold bytes_decode in He.
      destruct (utf8_valid _); [discriminate|]. injection He as <-. auto.
    + injection He as <-. apply AES_new_CBC_errors in Hnew. auto.
  - injection He as <-. unfold unhexlify in Hraw.
    destruct x as [s|l].
    + destruct (negb (forallb _ (str_encode s)));
        [injection Hraw as <-; eauto|].
      destruct (Nat.odd (length (str_encode s)));
        [injection Hraw as <-; eauto|].
      apply unhex_pairs_errors in Hraw. auto.
    + destruct (Nat.odd (length l)); [injection Hraw as <-; eauto|].
      apply unhex_pairs_errors in Hraw. auto.
Qed.

(** X4: [decrypt_payload] raises nothing but [ValueError],
    [binascii.Error] and [UnicodeDecodeError]. *)
Theorem decrypt_payload_errors (x : text_or_bytes) (k : string) (e : exn) :
  decrypt_payload x k = Raise e ->
  (exists msg, e = ValueError msg) \/
  (exists msg, e = binascii_Error msg) \/
  e = UnicodeDecodeError.
Proof. exact (decrypt_payload_raises x k e). Qed.

(** The empty text is not a payload: with a 16-byte key
    [decrypt_payload] raises the [ValueError] of [unpad], it does not
    return the empty string. *)
Theorem decrypt_payload_empty (k : string) :
  length (str_encode k) = 16 ->
  decrypt_payload (Str "") k
  = Raise (ValueError "Zero-length input cannot be unpadded").
Proof.
  intros Hk. unfold decrypt_payload. cbn [unhexlify str_encode
    list_ascii_of_string forallb negb length Nat.odd unhex_pairs bind].
  fold (str_encode k). rewrite (AES_new_CBC_16 _ Hk). reflexivity.
Qed.

End PayloadFacts.

(** X3: with a 16-byte key, the payload read as text (as [_build_payload]
    returns it and [get_result] receives it) decrypts to the plaintext. *)
Theorem payload_roundtrip_text `{BlockCipher} (p k : string) :
  is_str p ->
  length (str_encode k) = 16 ->
  (c <- encrypt_payload p k ;;
   t <- bytes_decode c ;;
   decrypt_payload (Str t) k) = Ok p.
Proof.
  intros Hp Hk.
  pose proof (encrypt_payload_16 p k Hk) as Hc.
  destruct (decrypt_encrypted_text p k _ Hp Hc) as [Hdec Hround].
  rewrite Hc. cbn [bind]. rewrite Hdec. cbn [bind]. exact Hround.
Qed.

(** X2 on the ciphertext of [result=CAPTURED]. *)
Lemma encrypt_payload_shape_witness :
  @encrypt_payload aes "result=CAPTURED" Example.key16
  = Ok (str_encode Example.hex_result_captured) /\
  forallb is_lower_hex (str_encode Example.hex_result_captured) = true /\
  length (str_encode Example.hex_result_captured)
  = 32 * (length (str_encode "result=CAPTURED") / 16 + 1).
Proof.
  assert (Hc : @encrypt_payload aes "result=CAPTURED" Example.key16
               = Ok (str_encode Example.hex_result_captured))
    by (vm_compute; reflexivity).
  exact (conj Hc (@encrypt_payload_shape aes _ _ _ Hc)).
Defined.

(** X3 at a 16-byte key. *)
Lemma payload_roundtrip_text_witness :
  is_str "result=CAPTURED" /\
  length (str_encode Example.key16) = 16 /\
  (c <- @encrypt_payload aes "result=CAPTURED" Example.key16 ;;
   t <- bytes_decode c ;;
   @decrypt_payload aes (Str t) Example.key16) = Ok "result=CAPTURED".
Proof.
  refine (conj _ (conj _ (@payload_roundtrip_text aes _ _ _ _)));
    reflexivity.
Defined.

(** X4 on a text that is not hexadecimal. *)
Lemma decrypt_payload_errors_witness :
  @decrypt_payload aes (Str "zz") Example.key16
  = Raise (binascii_Error "Non-hexadecimal digit found") /\
  ((exists msg, binascii_Error "Non-hexadecimal digit found" = ValueError msg) \/
   (exists msg, binascii_Error "Non-hexadecimal digit found"
                = binascii_Error msg) \/
   binascii_Error "Non-hexadecimal digit found" = UnicodeDecodeError).
Proof.
  exact (conj eq_refl
    (@decrypt_payload_errors aes (Str "zz") Example.key16 _ eq_refl)).
Defined.

(** The empty text at a 16-byte key. *)
Lemma decrypt_payload_empty_witness :
  length (str_encode Example.key16) = 16 /\
  @decrypt_payload aes (Str "") Example.key16
  = Raise (ValueError "Zero-length input cannot be unpadded").
Proof.
  exact (conj eq_refl (@decrypt_payload_empty aes Example.key16 eq_refl)).
Defined.

(** * Further properties of the decorator and the Gateway class *)

(** X9: a method wrapped by [check_if_set] never hands back what the
    method returned: a call that returns, returns [None]. *)
Theorem check_if_set_result_is_None {Self A : Type}
  (getattr : Self -> string -> result value) (props : list string)
  (f_name : string) (f : Self -> result A * Self) (self self' : Self)
  (v : value) :
  check_if_set getattr props f_name f self = (Ok v, self') -> v = VNone.
Proof.
  unfold check_if_set.
  destruct (all_set getattr self props) as [[|]|e]; try discriminate.
  destruct (f self) as [[a|e] s]; cbn [bind]; [|discriminate].
  intros Hv. now injection Hv as <- _.
Qed.

Lemma all_set_false {Self : Type} (getattr : Self -> string -> result value)
  (self : Self) (props : list string) :
  (forall p, In p props -> exists v, getattr self p = Ok v) ->
  (exists p v, In p props /\ getattr self p = Ok v /\ truthy v = false) ->
  all_set getattr self props = Ok false.
Proof.
  induction props as [|i r IH]; intros Hread (p & v & Hin & Hget & Hfalsy).
  - destruct Hin.
  - cbn [all_set].
    destruct (Hread i (or_introl eq_refl)) as [vi Hvi].
    rewrite Hvi. cbn [bind].
    destruct (truthy vi) eqn:Hti; [|reflexivity].
    apply IH.
    + intros q Hq. apply Hread. now right.
    + destruct Hin as [<-|Hin]; [congruence|]. eauto.
Qed.

(** X10: the guard of [check_if_set], for any list of properties.  When the
    properties can all be read and one of them is falsy, the wrapped
    method is not run: the call raises [AttributeError] with the message
    built from all of [props] and the method's name, and the instance is
    the one passed in. *)
Theorem check_if_set_guard {Self A : Type}
  (getattr : Self -> string -> result value) (props : list string)
  (f_name : string) (f : Self -> result A * Self) (self : Self) :
  (forall p, In p props -> exists v, getattr self p = Ok v) ->
  (exists p v, In p props /\ getattr self p = Ok v /\ truthy v = false) ->
  check_if_set getattr props f_name f self
  = (Raise (AttributeError (join "," props ++ " must be set before "
                            ++ f_name ++ " can be called")), self).
Proof.
  intros Hread Hfalsy. unfold check_if_set.
  now rewrite (all_set_false getattr self props Hread Hfalsy).
Qed.

Section GatewayMore.
Context `{Environment} `{BlockCipher}.


Lemma build_param_dict_other (self : Gateway) (a : Action) :
  a <> PURCHASE ->
  _build_param_dict self (VInt (Action_value a)) = Ok [].
Proof. destruct a; [contradiction | reflexivity ..]. Qed.

(** X12: for [REFUND], [VOID] and [INQUIRY] the payload carries no
    parameter: [_build_payload] encrypts the empty string, whatever the
    instance holds besides its key. *)
Theorem build_payload_other_actions (self : Gateway) (a : Action) :
  a <> PURCHASE ->
  _build_payload self (VAction a)
  = (k <- encode_receiver (key self) ;;
     payload <- encrypt_payload "" k ;;
     bytes_decode payload).
Proof.
  intros Ha. unfold _build_payload. cbn [attr_value bind].
  now rewrite (build_param_dict_other self a Ha).
Qed.

(** X13: called with [Action.PURCHASE], on an instance that has a tracking
    id and a 16-byte key, [_build_payload] returns a text that
    [decrypt_payload] turns back into the URL-encoded parameters, those
    with a truthy value, in the order of [_build_param_dict]. *)
Theorem build_payload_purchase_decrypts (self : Gateway) (k : string)
  (params : dict value) :
  key self = VStr k ->
  length (str_encode k) = 16 ->
  _build_param_dict self (VInt 1) = Ok params ->
  is_str (urlencode (filter (fun kv => truthy (snd kv)) params) ":/") ->
  exists payload,
    _build_payload self (VAction PURCHASE) = Ok payload /\
    decrypt_payload (Str payload) k
    = Ok (urlencode (filter (fun kv => truthy (snd kv)) params) ":/").
Proof.
  intros Hkey Hk Hparams Hstr.
  pose proof (encrypt_payload_16
                (urlencode (filter (fun kv => truthy (snd kv)) params) ":/")
                k Hk) as Hc.
  destruct (decrypt_encrypted_text _ _ _ Hstr Hc) as [Hdec Hround].
  eexists. split; [|exact Hround].
  unfold _build_payload. cbn [attr_value Action_value bind].
  rewrite Hparams. cbn [bind]. rewrite Hkey. cbn [encode_receiver bind].
  rewrite Hc. cbn [bind]. exact Hdec.
Qed.

(** The attributes a returning constructor leaves. *)
Lemma init_fields (keystore resource alias : string) (amount0 : value)
  (lang0 currency0 : string) (tid : value) (gw : Gateway) :
  __init__ keystore resource alias amount0 lang0 currency0 tid = Ok gw ->
  lang gw = match dict_get LANG_LOOKUP lang0 with
            | Some l => l
            | None => "USA"
            end /\
  amount gw = amount0 /\
  _udf1 gw = "" /\ _udf2 gw = "" /\ _udf3 gw = "" /\ _udf4 gw = "" /\
  _udf5 gw = "" /\
  _response_url gw = VNone /\ _error_url gw = VNone.
Proof.
  unfold __init__. intros Hinit.
  repeat (apply bind_ok_inv in Hinit; destruct Hinit as (? & _ & Hinit)).
  injection Hinit as <-. cbn. repeat split.
Qed.

(** X14: a freshly constructed instance cannot generate a request: both
    callback URLs are unset, and [generate_purchase_request] raises the
    decorator's [AttributeError] and leaves the instance as it is. *)
Theorem fresh_gateway_cannot_generate (keystore resource alias : string)
  (amount0 : value) (lang0 currency0 : string) (tid : value) (gw : Gateway) :
  __init__ keystore resource alias amount0 lang0 currency0 tid = Ok gw ->
  generate_purchase_request gw
  = (Raise (AttributeError
       "response_url,error_url must be set before generate_purchase_request can be called"),
     gw).
Proof.
  intros Hinit. apply init_fields in Hinit.
  destruct Hinit as (_ & _ & _ & _ & _ & _ & _ & Hr & He).
  unfold generate_purchase_request, check_if_set.
  rewrite all_set_urls. unfold get_response_url, get_error_url.
  rewrite Hr, He. reflexivity.
Qed.

(** X15: the language of an instance is [ARA] when the constructor is given
    [ar], and [USA] for every other argument, known or not. *)
Theorem init_lang (keystore resource alias : string) (amount0 : value)
  (lang0 currency0 : string) (tid : value) (gw : Gateway) :
  __init__ keystore resource alias amount0 lang0 currency0 tid = Ok gw ->
  lang gw = if String.eqb lang0 "ar" then "ARA" else "USA".
Proof.
  intros Hinit. apply init_fields in Hinit. destruct Hinit as (-> & _).
  cbn [LANG_LOOKUP dict_get].
  rewrite (String.eqb_sym "en" lang0), (String.eqb_sym "ar" lang0).
  destruct (String.eqb_spec lang0 "en") as [->|Hen]; [reflexivity|].
  now destruct (String.eqb lang0 "ar").
Qed.

End GatewayMore.

(** ** The constructor *)

Lemma dict_of_pairs_get_aux {V : Type} (l : list (string * V)) :
  forall (d : dict V) (k : string),
  dict_get (fold_left (fun d kv => dict_set d (fst kv) (snd kv)) l d) k
  = match last_binding l k with
    | Some v => Some v
    | None => dict_get d k
    end.
Proof.
  induction l as [|[k0 v0] r IH]; intros d k; cbn [fold_left last_binding];
    [reflexivity|].
  rewrite IH, dict_get_set. cbn [fst snd].
  destruct (last_binding r k); [reflexivity|].
  now destruct (String.eqb k0 k).
Qed.

(** [dict(pairs)] keeps, for each key, the value of its last pair. *)
Lemma dict_of_pairs_get {V : Type} (l : list (string * V)) (k : string) :
  dict_get (dict_of_pairs l) k = last_binding l k.
Proof.
  unfold dict_of_pairs. rewrite dict_of_pairs_get_aux.
  now destruct (last_binding l k).
Qed.

Lemma existsb_eqb_false (x : string) (l : list string) :
  ~ In x l -> existsb (String.eqb x) l = false.
Proof.
  intros Hnin. destruct (existsb (String.eqb x) l) eqn:Hex; [|reflexivity].
  apply existsb_exists in Hex. destruct Hex as (y & Hy & Heq).
  apply String.eqb_eq in Heq. subst y. contradiction.
Qed.

Section ConstructorFacts.
Context `{Environment} `{BlockCipher}.

(** X16: when a tag occurs more than once in the terminal document, the
    instance holds the text of its last occurrence. *)
Theorem init_last_tag_wins (keystore resource alias : string) (amount0 : value)
  (lang0 currency0 : string) (tid : value)
  (number : Z) (document : bytes) (children : list (string * value))
  (gw : Gateway) :
  Currency_number currency0 = Ok number ->
  read_resource_file resource keystore alias = Ok document ->
  ET_fromstring document = Ok children ->
  __init__ keystore resource alias amount0 lang0 currency0 tid = Ok gw ->
  last_binding children "password" = Some (password gw) /\
  last_binding children "resourceKey" = Some (key gw) /\
  last_binding children "id" = Some (portal_id gw) /\
  last_binding children "webaddress" = Some (_pgw_url gw).
Proof.
  intros Hcur Hread Hparse. unfold __init__.
  rewrite Hcur. cbn [bind]. rewrite Hread. cbn [bind].
  rewrite Hparse. cbn [bind]. unfold dict_getitem.
  rewrite !dict_of_pairs_get.
  destruct (last_binding children "password"); cbn [bind]; [|discriminate].
  destruct (last_binding children "resourceKey"); cbn [bind]; [|discriminate].
  destruct (last_binding children "id"); cbn [bind]; [|discriminate].
  destruct (last_binding children "webaddress"); cbn [bind]; [|discriminate].
  intros Hgw. injection Hgw as <-. cbn. auto.
Qed.

(** X17: when the keystore opens but holds no secret key named [pgkey],
    the constructor raises [KeyNotFound]; the resource file is not
    opened. *)
Theorem init_key_not_found (keystore resource alias : string) (amount0 : value)
  (lang0 currency0 : string) (tid : value) (number : Z) (ks : dict bytes) :
  Currency_number currency0 = Ok number ->
  KeyStore_load keystore "password" = Ok ks ->
  ~ In "pgkey" (map fst ks) ->
  read_resource_file resource keystore alias = Raise KeyNotFound /\
  __init__ keystore resource alias amount0 lang0 currency0 tid
  = Raise KeyNotFound.
Proof.
  intros Hcur Hks Hmiss. apply dict_get_None in Hmiss.
  assert (Hread : read_resource_file resource keystore alias
                  = Raise KeyNotFound).
  { unfold read_resource_file, load_keystore.
    rewrite Hks. cbn [bind]. now rewrite Hmiss. }
  split; [exact Hread|].
  unfold __init__. rewrite Hcur. cbn [bind]. now rewrite Hread.
Qed.

(** X18: when the decrypted archive has no entry [alias.xml], the
    constructor raises [InvalidAlias] with the alias and the names the
    archive does hold. *)
Theorem init_invalid_alias (keystore resource alias : string) (amount0 : value)
  (lang0 currency0 : string) (tid : value) (number : Z)
  (pgkey file data : bytes) (crypto : bytes -> result bytes)
  (zip_data : ZipArchive) :
  Currency_number currency0 = Ok number ->
  load_keystore keystore "pgkey" "password" = Ok pgkey ->
  triple_des pgkey = Ok crypto ->
  read_binary resource = Ok file ->
  crypto file = Ok data ->
  ZipFile data = Ok zip_data ->
  ~ In (alias ++ ".xml")%string (namelist zip_data) ->
  read_resource_file resource keystore alias
  = Raise (InvalidAlias alias (namelist zip_data)) /\
  __init__ keystore resource alias amount0 lang0 currency0 tid
  = Raise (InvalidAlias alias (namelist zip_data)).
Proof.
  intros Hcur Hkey Hdes Hfile Hdata Hzip Hmiss.
  assert (Hread : read_resource_file resource keystore alias
                  = Raise (InvalidAlias alias (namelist zip_data))).
  { unfold read_resource_file.
    rewrite Hkey. cbn [bind]. rewrite Hdes. cbn [bind].
    rewrite Hfile. cbn [bind]. rewrite Hdata. cbn [bind].
    rewrite Hzip. cbn [bind].
    now rewrite (existsb_eqb_false _ _ Hmiss). }
  split; [exact Hread|].
  unfold __init__. rewrite Hcur. cbn [bind]. now rewrite Hread.
Qed.

End ConstructorFacts.

(** ** Setters and what the calls on an instance keep *)

Section SetterFacts.
Context `{Environment} `{BlockCipher}.

Lemma validate_gw_url_returns_argument (s u : string) :
  validate_gw_url s = Ok u -> u = s.
Proof.
  unfold validate_gw_url.
  destruct (urlparse s) as [p|e]; cbn [bind]; [|discriminate].
  destruct (negb (existsb _ _)); [discriminate|].
  destruct (negb (String.eqb _ _)); [discriminate|].
  intros Hu. now injection Hu.
Qed.

Lemma same_terminal_refl (g : Gateway) : same_terminal g g.
Proof. unfold same_terminal. repeat split. Qed.

Lemma same_terminal_trans (g1 g2 g3 : Gateway) :
  same_terminal g1 g2 -> same_terminal g2 g3 -> same_terminal g1 g3.
Proof.
  unfold same_terminal. intros H12 H23.
  decompose [and] H12. decompose [and] H23.
  repeat split; congruence.
Qed.

(** X19: a URL setter stores its argument exactly when [validate_gw_url]
    accepts it, and touches nothing else; when the URL is refused the
    setter raises what [validate_gw_url] raised and the instance is
    unchanged. *)
Theorem set_url_spec (s : string) (self : Gateway) :
  (forall self', set_response_url s self = (Ok tt, self') ->
     validate_gw_url s = Ok s /\
     get_response_url self' = VStr s /\
     get_error_url self' = get_error_url self /\
     same_terminal self self') /\
  (forall self', set_error_url s self = (Ok tt, self') ->
     validate_gw_url s = Ok s /\
     get_error_url self' = VStr s /\
     get_response_url self' = get_response_url self /\
     same_terminal self self') /\
  (forall e self',
     set_response_url s self = (Raise e, self') \/
     set_error_url s self = (Raise e, self') ->
     validate_gw_url s = Raise e /\ self' = self).
Proof.
  unfold set_response_url, set_error_url, assign.
  destruct (validate_gw_url s) as [u|e0] eqn:Hval.
  - apply validate_gw_url_returns_argument in Hval. subst u.
    repeat split; intros; try discriminate;
      try (match goal with
           | Heq : (Ok tt, _) = (Ok tt, _) |- _ => injection Heq as <-
           end; reflexivity).
    + destruct H1; discriminate.
    + destruct H1; discriminate.
  - repeat split; intros; try discriminate.
    + destruct H1 as [Heq|Heq]; injection Heq as <- _; reflexivity.
    + destruct H1 as [Heq|Heq]; now injection Heq as _ <-.
Qed.

Lemma after_same_terminal (c : call) (self : Gateway) :
  same_terminal self (after c self).
Proof.
  destruct c; cbn [after];
    try (apply same_terminal_refl).
  - unfold set_response_url, assign.
    destruct (validate_gw_url s); cbn [snd];
      [unfold same_terminal; cbn; repeat split | apply same_terminal_refl].
  - unfold set_error_url, assign.
    destruct (validate_gw_url s); cbn [snd];
      [unfold same_terminal; cbn; repeat split | apply same_terminal_refl].
  - unfold generate_purchase_request, check_if_set.
    destruct (all_set getattr self _) as [[|]|e]; cbn [snd];
      apply same_terminal_refl.
Qed.

(** X20: no sequence of setter calls and purchase requests changes the
    terminal configuration, the amount, language, currency and tracking
    id, or any UDF of an instance: only the two callback URLs can be
    assigned. *)
Theorem calls_keep_terminal (cs : list call) (self : Gateway) :
  same_terminal self (after_all cs self).
Proof.
  unfold after_all. revert self.
  induction cs as [|c cs IH]; intros self; cbn [fold_left].
  - apply same_terminal_refl.
  - eapply same_terminal_trans; [apply after_same_terminal | apply IH].
Qed.

Lemma after_url_ok (c : call) (self : Gateway) :
  url_ok (_response_url self) -> url_ok (_error_url self) ->
  url_ok (_response_url (after c self)) /\
  url_ok (_error_url (after c self)).
Proof.
  intros Hr He.
  destruct c; cbn [after]; try (split; assumption).
  - unfold set_response_url, assign.
    destruct (validate_gw_url s) as [u|e] eqn:Hval; cbn [snd];
      [|split; assumption].
    pose proof (validate_gw_url_returns_argument _ _ Hval) as ->.
    split; [right; exists s; split; [reflexivity | exact Hval] | exact He].
  - unfold set_error_url, assign.
    destruct (validate_gw_url s) as [u|e] eqn:Hval; cbn [snd];
      [|split; assumption].
    pose proof (validate_gw_url_returns_argument _ _ Hval) as ->.
    split; [exact Hr | right; exists s; split; [reflexivity | exact Hval]].
  - unfold generate_purchase_request, check_if_set.
    destruct (all_set getattr self _) as [[|]|e]; cbn [snd];
      split; assumption.
Qed.

(** X21: on every instance reached from the constructor by setter calls
    and purchase requests, each callback URL is unset or a string that
    [validate_gw_url] accepts, and the five UDFs are the empty string:
    no UDF setter ever assigns. *)
Theorem reachable_gateway_invariant (keystore resource alias : string)
  (amount0 : value) (lang0 currency0 : string) (tid : value) (gw : Gateway)
  (cs : list call) :
  __init__ keystore resource alias amount0 lang0 currency0 tid = Ok gw ->
  url_ok (_response_url (after_all cs gw)) /\
  url_ok (_error_url (after_all cs gw)) /\
  _udf1 (after_all cs gw) = "" /\ _udf2 (after_all cs gw) = "" /\
  _udf3 (after_all cs gw) = "" /\ _udf4 (after_all cs gw) = "" /\
  _udf5 (after_all cs gw) = "".
Proof.
  intros Hinit. apply init_fields in Hinit.
  destruct Hinit as (_ & _ & H1 & H2 & H3 & H4 & H5 & Hr & He).
  assert (Hurl : url_ok (_response_url gw) /\ url_ok (_error_url gw))
    by (rewrite Hr, He; split; left; reflexivity).
  clear Hr He. revert gw H1 H2 H3 H4 H5 Hurl. unfold after_all.
  induction cs as [|c cs IH]; intros gw H1 H2 H3 H4 H5 [Hr He];
    cbn [fold_left]; [auto 10|].
  pose proof (after_same_terminal c gw) as Hsame.
  unfold same_terminal in Hsame. decompose [and] Hsame.
  apply IH; try congruence. now apply after_url_ok.
Qed.

End SetterFacts.

(** ** Callbacks *)

Section CallbackMore.
Context `{Environment} `{BlockCipher}.

Lemma parse_qsl_field (raw n v : string) :
  In (n, v) (parse_qsl raw) ->
  exists field n0 v0,
    In field (split_on "&"%char raw) /\
    split_once "="%char field = Some (n0, v0) /\
    v0 <> "" /\
    n = unquote (replace_plus n0) /\ v = unquote (replace_plus v0).
Proof.
  unfold parse_qsl. intros Hin. apply in_flat_map in Hin.
  destruct Hin as (field & Hfield & Hin).
  destruct (split_once "="%char field) as [[n0 v0]|] eqn:Hsplit; [|destruct Hin].
  destruct (String.eqb_spec v0 "") as [Hv|Hv]; [destruct Hin|].
  destruct Hin as [Heq|[]]. injection Heq as <- <-.
  exists field, n0, v0. auto.
Qed.

Lemma get_result_missing (self : Gateway) (raw : string) :
  occurrences "trandata" (parse_qsl raw) = [] ->
  get_result self raw
  = Raise (InvalidGatewayResponse
             "Invalid response from the gateway, missing encrypted data").
Proof.
  intros Hocc. unfold get_result, _parse_response, dict_pop.
  now rewrite parse_qs_get, Hocc.
Qed.

(** X5: [get_result] raises [InvalidGatewayResponse] exactly when the
    callback has no [trandata] value.  A [trandata] that is malformed, or
    that the key does not decrypt, surfaces as another exception. *)
Theorem get_result_invalid_response_iff (self : Gateway) (raw : string) :
  (exists msg, get_result self raw = Raise (InvalidGatewayResponse msg))
  <-> occurrences "trandata" (parse_qsl raw) = [].
Proof.
  split; [|intros Hocc; rewrite (get_result_missing _ _ Hocc); eauto].
  intros [msg Hraise].
  destruct (occurrences "trandata" (parse_qsl raw)) as [|hex rest] eqn:Hocc;
    [reflexivity|exfalso].
  destruct (encode_receiver (key self)) as [k0|e] eqn:Hkey.
  - destruct (decrypt_payload (Str hex) k0) as [text|e] eqn:Hdec.
    + destruct (get_result_spec self raw hex rest k0 text Hocc Hkey Hdec)
        as (d & Hd & _).
      congruence.
    + unfold get_result, _parse_response, dict_pop in Hraise.
      rewrite parse_qs_get, Hocc in Hraise. cbn [item0 bind] in Hraise.
      rewrite Hkey in Hraise. cbn [bind] in Hraise.
      rewrite Hdec in Hraise. cbn [bind] in Hraise.
      injection Hraise as ->.
      destruct (decrypt_payload_raises _ _ _ Hdec) as [[m Hm]|[[m Hm]|Hm]];
        discriminate Hm.
  - unfold get_result, _parse_response, dict_pop in Hraise.
    rewrite parse_qs_get, Hocc in Hraise. cbn [item0 bind] in Hraise.
    rewrite Hkey in Hraise. cbn [bind] in Hraise.
    injection Hraise as ->.
    destruct (key self); discriminate Hkey.
Qed.

(** X6: a callback string in which no field [name=value] with a non-empty
    value has the name [trandata] is refused with
    [InvalidGatewayResponse]: the empty string, a bare [trandata] and
    [trandata=] all are. *)
Theorem get_result_no_trandata_field (self : Gateway) (raw : string) :
  (forall field n v,
     In field (split_on "&"%char raw) ->
     split_once "="%char field = Some (n, v) ->
     v <> "" ->
     unquote (replace_plus n) <> "trandata") ->
  get_result self raw
  = Raise (InvalidGatewayResponse
             "Invalid response from the gateway, missing encrypted data").
Proof.
  intros Hfields. apply get_result_missing, occurrences_nil.
  intros v Hin. apply parse_qsl_field in Hin.
  destruct Hin as (field & n0 & v0 & Hfield & Hsplit & Hv0 & Hn & _).
  now apply (Hfields field n0 v0).
Qed.

(** X7: what [encrypt_payload] produced under the instance's key,
    [get_result] reads back: sent as the first [trandata] value of a
    callback, the fields of the encrypted text appear in the result, after
    the cleartext fields of the callback. *)
Theorem get_result_reads_encrypted (self : Gateway) (raw k text : string)
  (c : bytes) (rest : list string) :
  key self = VStr k ->
  is_str text ->
  encrypt_payload text k = Ok c ->
  occurrences "trandata" (parse_qsl raw) = string_of_list_ascii c :: rest ->
  exists d,
    get_result self raw = Ok d /\
    forall name, name <> "trandata" ->
      dict_get d name
      = hd_error (occurrences name (parse_qsl raw)
                  ++ occurrences name (parse_qsl text)).
Proof.
  intros Hkey Htext Hc Hocc.
  destruct (decrypt_encrypted_text text k c Htext Hc) as [_ Hdec].
  assert (Hrecv : encode_receiver (key self) = Ok k) by now rewrite Hkey.
  destruct (get_result_spec self raw _ rest k text Hocc Hrecv Hdec)
    as (d & Hd & Hget).
  exists d. split; [exact Hd|].
  intros name Hname. rewrite Hget.
  apply String.eqb_neq in Hname. now rewrite Hname.
Qed.

(** X8: a [trandata] value of odd length is not reported as an invalid
    gateway response: [get_result] lets the [binascii.Error] of
    [unhexlify] through, before the key is looked at as a cipher key. *)
Theorem get_result_odd_trandata (self : Gateway) (raw k hex : string)
  (rest : list string) :
  key self = VStr k ->
  occurrences "trandata" (parse_qsl raw) = hex :: rest ->
  forallb (fun a => (byte_val a <? 128)%N) (str_encode hex) = true ->
  Nat.odd (length (str_encode hex)) = true ->
  get_result self raw = Raise (binascii_Error "Odd-length string").
Proof.
  intros Hkey Hocc Hascii Hodd.
  unfold get_result, _parse_response, dict_pop.
  rewrite parse_qs_get, Hocc. cbn [item0 bind].
  rewrite Hkey. cbn [encode_receiver bind].
  unfold decrypt_payload, unhexlify. now rewrite Hascii, Hodd.
Qed.

End CallbackMore.

(** * The further properties on the example world *)

(** A world whose keystore opens but has no [pgkey]. *)
Definition world_without_pgkey : Environment :=
  Build_Environment
    Example.urlparse Example.unquote Example.quote_plus Example.str_strip
    Example.translate_table Example.float_repr Example.Currency_number
    (fun _ _ => Ok [("signing", Example.pgkey)])
    (fun _ => Ok (fun data => Ok data))
    (fun _ => Ok [])
    (fun _ => Ok Example.archive)
    (fun _ => Ok Example.terminal)
    1600000000%Z.

(** A terminal document that repeats its [password] tag. *)
Definition terminal_with_two_passwords : list (string * value) :=
  ("password", VStr "old") :: Example.terminal.

(** X6 on a callback whose [trandata] fields carry no value. *)
Lemma get_result_no_trandata_field_witness :
  (forall field n v,
     In field (split_on "&"%char "trandata=&foo=1&trandata") ->
     split_once "="%char field = Some (n, v) ->
     v <> "" ->
     @unquote Example.env (replace_plus n) <> "trandata") /\
  @get_result Example.env aes Example.gateway "trandata=&foo=1&trandata"
  = Raise (InvalidGatewayResponse
             "Invalid response from the gateway, missing encrypted data").
Proof.
  assert (Hfields : forall field n v,
            In field (split_on "&"%char "trandata=&foo=1&trandata") ->
            split_once "="%char field = Some (n, v) ->
            v <> "" ->
            @unquote Example.env (replace_plus n) <> "trandata").
  { intros field n v [<-|[<-|[<-|[]]]] Hsplit Hv.
    - injection Hsplit as <- <-. now contradiction Hv.
    - injection Hsplit as <- <-. discriminate.
    - discriminate Hsplit. }
  exact (conj Hfields
    (@get_result_no_trandata_field Example.env aes Example.gateway _ Hfields)).
Defined.

(** X7 on a callback carrying the ciphertext of [result=CAPTURED]. *)
Lemma get_result_reads_encrypted_witness :
  key Example.gateway = VStr Example.key16 /\
  is_str "result=CAPTURED" /\
  @encrypt_payload aes "result=CAPTURED" Example.key16
  = Ok (str_encode Example.hex_result_captured) /\
  occurrences "trandata"
    (@parse_qsl Example.env
       ("paymentid=77&trandata=" ++ Example.hex_result_captured))
  = [string_of_list_ascii (str_encode Example.hex_result_captured)] /\
  exists d,
    @get_result Example.env aes Example.gateway
      ("paymentid=77&trandata=" ++ Example.hex_result_captured) = Ok d /\
    forall name, name <> "trandata" ->
      dict_get d name
      = hd_error
          (occurrences name
             (@parse_qsl Example.env
                ("paymentid=77&trandata=" ++ Example.hex_result_captured))
           ++ occurrences name (@parse_qsl Example.env "result=CAPTURED")).
Proof.
  assert (Hc : @encrypt_payload aes "result=CAPTURED" Example.key16
               = Ok (str_encode Example.hex_result_captured))
    by (vm_compute; reflexivity).
  assert (Ht : occurrences "trandata"
                 (@parse_qsl Example.env
                    ("paymentid=77&trandata=" ++ Example.hex_result_captured))
               = [string_of_list_ascii
                    (str_encode Example.hex_result_captured)])
    by (vm_compute; reflexivity).
  exact (conj eq_refl (conj eq_refl (conj Hc (conj Ht
    (@get_result_reads_encrypted Example.env aes Example.gateway
       ("paymentid=77&trandata=" ++ Example.hex_result_captured)
       Example.key16 "result=CAPTURED"
       (str_encode Example.hex_result_captured) []
       eq_refl eq_refl Hc Ht))))).
Defined.

(** X8 on a [trandata] of three characters. *)
Lemma get_result_odd_trandata_witness :
  key Example.gateway = VStr Example.key16 /\
  occurrences "trandata" (@parse_qsl Example.env "trandata=abc") = ["abc"] /\
  forallb (fun a => (byte_val a <? 128)%N) (str_encode "abc") = true /\
  Nat.odd (length (str_encode "abc")) = true /\
  @get_result Example.env aes Example.gateway "trandata=abc"
  = Raise (binascii_Error "Odd-length string").
Proof.
  exact (conj eq_refl (conj eq_refl (conj eq_refl (conj eq_refl
    (@get_result_odd_trandata Example.env aes Example.gateway
       "trandata=abc" Example.key16 "abc" [] eq_refl eq_refl eq_refl
       eq_refl))))).
Defined.

(** X9 on a wrapped method that returns [5]. *)
Lemma check_if_set_result_is_None_witness :
  @check_if_set Gateway nat getattr ["lang"] "probe"
    (fun self => (Ok 5, self)) Example.gateway
  = (Ok VNone, Example.gateway) /\
  VNone = VNone.
Proof.
  exact (conj eq_refl
    (@check_if_set_result_is_None Gateway nat getattr ["lang"] "probe"
       (fun self => (Ok 5, self)) Example.gateway Example.gateway VNone
       eq_refl)).
Defined.

(** X10 on the fresh instance, guarded on [amount] and [error_url]. *)
Lemma check_if_set_guard_witness :
  (forall p, In p ["amount"; "error_url"] ->
     exists v, getattr Example.gateway p = Ok v) /\
  (exists p v, In p ["amount"; "error_url"] /\
     getattr Example.gateway p = Ok v /\ truthy v = false) /\
  @check_if_set Gateway nat getattr ["amount"; "error_url"] "probe"
    (fun self => (Ok 5, self)) Example.gateway
  = (Raise (AttributeError
       "amount,error_url must be set before probe can be called"),
     Example.gateway).
Proof.
  assert (Hread : forall p, In p ["amount"; "error_url"] ->
            exists v, getattr Example.gateway p = Ok v).
  { intros p [<-|[<-|[]]]; eexists; reflexivity. }
  assert (Hfalsy : exists p v, In p ["amount"; "error_url"] /\
            getattr Example.gateway p = Ok v /\ truthy v = false).
  { exists "error_url", VNone. repeat split. right. now left. }
  exact (conj Hread (conj Hfalsy
    (@check_if_set_guard Gateway nat getattr ["amount"; "error_url"] "probe"
       (fun self => (Ok 5, self)) Example.gateway Hread Hfalsy))).
Defined.

(** X12 for [REFUND]. *)
Lemma build_payload_other_actions_witness :
  REFUND <> PURCHASE /\
  @_build_payload Example.env aes Example.gateway (VAction REFUND)
  = (k <- encode_receiver (key Example.gateway) ;;
     payload <- @encrypt_payload aes "" k ;;
     bytes_decode payload).
Proof.
  assert (Ha : REFUND <> PURCHASE) by discriminate.
  exact (conj Ha
    (@build_payload_other_actions Example.env aes Example.gateway REFUND Ha)).
Defined.

(** X13 on the instance with both URLs set. *)
Lemma build_payload_purchase_decrypts_witness :
  key Example.gateway_with_urls = VStr Example.key16 /\
  length (str_encode Example.key16) = 16 /\
  (exists params,
     _build_param_dict Example.gateway_with_urls (VInt 1) = Ok params /\
     is_str (@urlencode Example.env
               (filter (fun kv => truthy (snd kv)) params) ":/") /\
     exists payload,
       @_build_payload Example.env aes Example.gateway_with_urls
         (VAction PURCHASE) = Ok payload /\
       @decrypt_payload aes (Str payload) Example.key16
       = Ok (@urlencode Example.env
               (filter (fun kv => truthy (snd kv)) params) ":/")).
Proof.
  split; [reflexivity|]. split; [reflexivity|].
  eexists. split; [reflexivity|].
  assert (Hstr : is_str
            (@urlencode Example.env
               (filter (fun kv => truthy (snd kv))
                  (dict_of_pairs
                     [("action", VInt 1);
                      ("id", portal_id Example.gateway_with_urls);
                      ("password", password Example.gateway_with_urls);
                      ("langid", VStr (lang Example.gateway_with_urls));
                      ("currencycode",
                       VInt (currency Example.gateway_with_urls));
                      ("trackid", VStr "1600000000");
                      ("amt", amount Example.gateway_with_urls);
                      ("udf1", get_udf1 Example.gateway_with_urls);
                      ("udf2", get_udf2 Example.gateway_with_urls);
                      ("udf3", get_udf3 Example.gateway_with_urls);
                      ("udf4", get_udf4 Example.gateway_with_urls);
                      ("udf5", get_udf5 Example.gateway_with_urls);
                      ("responseURL",
                       get_response_url Example.gateway_with_urls);
                      ("errorURL",
                       get_error_url Example.gateway_with_urls)])) ":/"))
    by (vm_compute; reflexivity).
  split; [exact Hstr|].
  exact (@build_payload_purchase_decrypts Example.env aes
           Example.gateway_with_urls Example.key16 _
           eq_refl eq_refl eq_refl Hstr).
Defined.

(** The parameters of the example purchase, as the payload carries them. *)
Example purchase_parameters :
  (params <- _build_param_dict Example.gateway_with_urls (VInt 1) ;;
   Ok (@urlencode Example.env
         (filter (fun kv => truthy (snd kv)) params) ":/"))
  = Ok "action=1&id=T001&password=pw&langid=USA&currencycode=414&trackid=1600000000&amt=10.5&responseURL=https://example.com/response&errorURL=https://example.com/error".
Proof. vm_compute. reflexivity. Qed.

(** X14 on the example constructor call. *)
Lemma fresh_gateway_cannot_generate_witness :
  @__init__ Example.env "keystore.bin" "resource.cgn" "terminal"
    (VFloat 10.5%float) "en" "KWD" VNone = Ok Example.gateway /\
  @generate_purchase_request Example.env aes Example.gateway
  = (Raise (AttributeError
       "response_url,error_url must be set before generate_purchase_request can be called"),
     Example.gateway).
Proof.
  assert (Hinit : @__init__ Example.env "keystore.bin" "resource.cgn"
                    "terminal" (VFloat 10.5%float) "en" "KWD" VNone
                  = Ok Example.gateway) by (vm_compute; reflexivity).
  exact (conj Hinit
    (@fresh_gateway_cannot_generate Example.env aes _ _ _ _ _ _ _ _ Hinit)).
Defined.

(** X15 with a language the lookup table does not know. *)
Lemma init_lang_witness :
  (exists gw,
     @__init__ Example.env "keystore.bin" "resource.cgn" "terminal"
       (VFloat 10.5%float) "fr" "KWD" VNone = Ok gw /\
     lang gw = if String.eqb "fr" "ar" then "ARA" else "USA").
Proof.
  eexists. split; [vm_compute; reflexivity|].
  refine (@init_lang Example.env "keystore.bin" "resource.cgn" "terminal"
            (VFloat 10.5%float) "fr" "KWD" VNone _ _).
  vm_compute. reflexivity.
Defined.

(** X16 on a document with two [password] tags. *)
Lemma init_last_tag_wins_witness :
  exists gw,
    @__init__ (Example.world terminal_with_two_passwords)
      "keystore.bin" "resource.cgn" "terminal" (VFloat 10.5%float)
      "en" "KWD" VNone = Ok gw /\
    last_binding terminal_with_two_passwords "password" = Some (password gw) /\
    last_binding terminal_with_two_passwords "resourceKey" = Some (key gw) /\
    last_binding terminal_with_two_passwords "id" = Some (portal_id gw) /\
    last_binding terminal_with_two_passwords "webaddress"
    = Some (_pgw_url gw).
Proof.
  eexists. split; [vm_compute; reflexivity|].
  refine (@init_last_tag_wins (Example.world terminal_with_two_passwords)
            "keystore.bin" "resource.cgn" "terminal" (VFloat 10.5%float)
            "en" "KWD" VNone 414%Z [] terminal_with_two_passwords _
            eq_refl eq_refl eq_refl _).
  vm_compute. reflexivity.
Defined.

(** X17 in the world without [pgkey]. *)
Lemma init_key_not_found_witness :
  @Currency_number world_without_pgkey "KWD" = Ok 414%Z /\
  @KeyStore_load world_without_pgkey "keystore.bin" "password"
  = Ok [("signing", Example.pgkey)] /\
  ~ In "pgkey" (map fst [("signing", Example.pgkey)]) /\
  @read_resource_file world_without_pgkey "resource.cgn" "keystore.bin"
    "terminal" = Raise KeyNotFound /\
  @__init__ world_without_pgkey "keystore.bin" "resource.cgn" "terminal"
    (VFloat 10.5%float) "en" "KWD" VNone = Raise KeyNotFound.
Proof.
  assert (Hmiss : ~ In "pgkey" (map fst [("signing", Example.pgkey)])).
  { intros [Heq|[]]. discriminate Heq. }
  exact (conj eq_refl (conj eq_refl (conj Hmiss
    (@init_key_not_found world_without_pgkey "keystore.bin" "resource.cgn"
       "terminal" (VFloat 10.5%float) "en" "KWD" VNone 414%Z _
       eq_refl eq_refl Hmiss)))).
Defined.

(** X18 with an alias the archive does not hold. *)
Lemma init_invalid_alias_witness :
  ~ In ("shop" ++ ".xml")%string (namelist Example.archive) /\
  @read_resource_file Example.env "resource.cgn" "keystore.bin" "shop"
  = Raise (InvalidAlias "shop" (namelist Example.archive)) /\
  @__init__ Example.env "keystore.bin" "resource.cgn" "shop"
    (VFloat 10.5%float) "en" "KWD" VNone
  = Raise (InvalidAlias "shop" (namelist Example.archive)).
Proof.
  assert (Hmiss : ~ In ("shop" ++ ".xml")%string (namelist Example.archive)).
  { intros [Heq|[]]. discriminate Heq. }
  exact (conj Hmiss
    (@init_invalid_alias Example.env "keystore.bin" "resource.cgn" "shop"
       (VFloat 10.5%float) "en" "KWD" VNone 414%Z Example.pgkey [] []
       (fun data => Ok data) Example.archive
       eq_refl eq_refl eq_refl eq_refl eq_refl eq_refl Hmiss)).
Defined.

(** X21 after a run of calls on the example instance. *)
Lemma reachable_gateway_invariant_witness :
  @__init__ Example.env "keystore.bin" "resource.cgn" "terminal"
    (VFloat 10.5%float) "en" "KWD" VNone = Ok Example.gateway /\
  @url_ok Example.env
    (_response_url
       (@after_all Example.env aes
          [Set_udf1 "order 7"; Set_response_url "https://example.com/ok";
           Set_error_url "ftp://example.com/bad"; Generate_purchase_request]
          Example.gateway)) /\
  @url_ok Example.env
    (_error_url
       (@after_all Example.env aes
          [Set_udf1 "order 7"; Set_response_url "https://example.com/ok";
           Set_error_url "ftp://example.com/bad"; Generate_purchase_request]
          Example.gateway)) /\
  _udf1 (@after_all Example.env aes
          [Set_udf1 "order 7"; Set_response_url "https://example.com/ok";
           Set_error_url "ftp://example.com/bad"; Generate_purchase_request]
          Example.gateway) = "".
Proof.
  assert (Hinit : @__init__ Example.env "keystore.bin" "resource.cgn"
                    "terminal" (VFloat 10.5%float) "en" "KWD" VNone
                  = Ok Example.gateway) by (vm_compute; reflexivity).
  pose proof (@reachable_gateway_invariant Example.env aes _ _ _ _ _ _ _ _
                [Set_udf1 "order 7"; Set_response_url "https://example.com/ok";
                 Set_error_url "ftp://example.com/bad";
                 Generate_purchase_request] Hinit)
    as (Hr & He & H1 & _).
  exact (conj Hinit (conj Hr (conj He H1))).
Defined.
